(** * CrewAI Financial Market Wrap: a shallow embedding of [main2.py]

    The program is a straight-line script of calls to external
    collaborators (the Tavily search API and the Telegram API through
    [requests.post], the Groq model through [litellm.completion], the
    CrewAI framework through [crew.kickoff]) with [try]/[except] recovery
    around them.  It is embedded as a small trace-and-exception monad:
    every externally visible action appends an event to a trace, and the
    answers of the collaborators are read from a [World], one scripted
    answer per call. *)

From Stdlib Require Import String Ascii List Arith Bool Lia DecimalString.
Import ListNotations.
Local Open Scope string_scope.

Set Implicit Arguments.

(** ** Python strings *)

Module PyStr.

(** [c.lower()] on one character; messages are modelled as byte strings,
    so only the ASCII letters fold. *)
Definition lower_ascii (c : ascii) : ascii :=
  let n := nat_of_ascii c in
  if (65 <=? n)%nat && (n <=? 90)%nat then ascii_of_nat (n + 32) else c.

(** [s.lower()] *)
Fixpoint lower (s : string) : string :=
  match s with
  | EmptyString => EmptyString
  | String c r => String (lower_ascii c) (lower r)
  end.

(** [needle in hay] *)
Fixpoint contains (needle hay : string) : bool :=
  if String.prefix needle hay then true
  else match hay with
       | EmptyString => false
       | String _ r => contains needle r
       end.

(** [sep.join(parts)] *)
Fixpoint join (sep : string) (parts : list string) : string :=
  match parts with
  | [] => ""
  | [p] => p
  | p :: rest => p ++ sep ++ join sep rest
  end.

(** [str(n)] for a non-negative integer *)
Definition of_nat (n : nat) : string := NilZero.string_of_uint (Nat.to_uint n).

(** [str(v)] for a value that is a string or [None] *)
Definition of_opt (v : option string) : string :=
  match v with Some s => s | None => "None" end.

(** [s * n] *)
Fixpoint repeat (s : string) (n : nat) : string :=
  match n with O => "" | S k => s ++ repeat s k end.

Definition newline : string := String (ascii_of_nat 10) EmptyString.

End PyStr.

(** ** Exceptions

    Every handler of the program is [except Exception as e] and only ever
    looks at [str(e)], so an exception is its class name and its message. *)

Record exn := Exn { exn_class : string; exn_msg : string }.

(** [str(e)] *)
Definition str_exn (e : exn) : string := exn_msg e.

(** ** Values exchanged with the collaborators *)

(** A value inside a JSON request body. *)
Inductive PyVal :=
| VStr (s : string)
| VNone
| VInt (n : nat)
| VBool (b : bool).

Definition of_config (v : option string) : PyVal :=
  match v with Some s => VStr s | None => VNone end.

(** The arguments of one [requests.post(url, headers=, json=, timeout=)]. *)
Record Request := {
  req_url : string;
  req_headers : list (string * string);
  req_json : list (string * PyVal);
  req_timeout : option nat
}.

(** One entry of ["results"] in a search response: a dict whose keys may be
    missing. *)
Record Article := {
  title : option string;
  content : option string;
  url : option string;
  published_date : option string
}.

(** One entry of ["images"]: a dict, or a bare URL string (on which
    [img.get] raises [AttributeError]). *)
Inductive ImageItem :=
| ImgObj (img_url description : option string)
| ImgStr (s : string).

(** The object [response.json()] decodes to; either key may be missing. *)
Record SearchData := {
  results : option (list Article);
  images : option (list ImageItem)
}.

(** A [requests.Response]: [raise_for_status()] raises [HTTPError] with the
    given message or passes ([None]); [json()] raises or decodes. *)
Record Response := {
  status_error : option string;
  resp_json : exn + SearchData
}.

(** What the framework does inside [crew.kickoff()].  None of it is code of
    this program except the one tool registered on an agent
    ([send_agent], [tools=[telegram_sender_tool]]): the framework may call
    it with a message, sees the string it returns, and goes on; in the end
    it returns its result or raises. *)
Inductive Framework :=
| Finish (result : string)
| Abort (e : exn)
| UseTool (message : string) (k : string -> Framework).

(** ** Events and the world *)

Inductive Level := INFO | ERROR.

Inductive Event :=
| EPost (r : Request)                       (* requests.post *)
| ECompletion (model prompt : string) (max_tokens timeout : nat)
                                            (* litellm.completion *)
| EKickoff                                  (* crew.kickoff *)
| ESleep (seconds : nat)                    (* time.sleep *)
| ELog (lvl : Level) (msg : string)         (* logger.info / logger.error *)
| EPrint (msg : string)                     (* print *)
| ESetEnv (key value : string)              (* os.environ[key] = value *)
| EClock                                    (* time.time *)
| ENow.                                     (* datetime.now *)

(** The trace of an invocation, newest event first. *)
Definition Trace := list Event.

Definition is_post (e : Event) : bool :=
  match e with EPost _ => true | _ => false end.
Definition is_completion (e : Event) : bool :=
  match e with ECompletion _ _ _ _ => true | _ => false end.
Definition is_clock (e : Event) : bool :=
  match e with EClock => true | _ => false end.
Definition is_now (e : Event) : bool :=
  match e with ENow => true | _ => false end.

Definition count (p : Event -> bool) (tr : Trace) : nat :=
  length (filter p tr).

(** The seconds slept, newest first. *)
Fixpoint sleeps (tr : Trace) : list nat :=
  match tr with
  | [] => []
  | ESleep n :: r => n :: sleeps r
  | _ :: r => sleeps r
  end.

(** The collaborators: the answer to the n-th call of each kind (counting
    from 0 within the invocation) for the request made. *)
Record World := {
  http_reply : nat -> Request -> exn + Response;
  llm_reply : nat -> string -> exn + string;
  crew : Framework;
  llm_init : option exn;              (* LLM(...) at import raises, or not *)
  clock : nat -> nat;                 (* time.time(), in 1/100 s *)
  now : nat -> string -> string       (* datetime.now().strftime(fmt) *)
}.

(** ** The monad: a trace and an exception *)

Definition M (A : Type) : Type := Trace -> (exn + A) * Trace.

Definition ret {A} (a : A) : M A := fun tr => (inr a, tr).
Definition raise {A} (e : exn) : M A := fun tr => (inl e, tr).
Definition bind {A B} (m : M A) (f : A -> M B) : M B :=
  fun tr => match m tr with
            | (inr a, tr') => f a tr'
            | (inl e, tr') => (inl e, tr')
            end.
(** [try: m  except Exception as e: h e] *)
Definition try_except {A} (m : M A) (h : exn -> M A) : M A :=
  fun tr => match m tr with
            | (inr a, tr') => (inr a, tr')
            | (inl e, tr') => h e tr'
            end.
Definition emit (e : Event) : M unit := fun tr => (inr tt, e :: tr).

Notation "x <- m ;; k" := (bind m (fun x => k))
  (at level 61, m at next level, right associativity).
Notation "m ;; k" := (bind m (fun _ => k))
  (at level 61, right associativity).

(** ** The program *)

Definition GROQ_MODEL_NAME : string := "llama-3.1-8b-instant".

(** The four module-level values read with [os.getenv]. *)
Record Config := {
  GROQ_API_KEY : option string;
  TAVILY_API_KEY : option string;
  TELEGRAM_BOT_TOKEN : option string;
  TELEGRAM_CHAT_ID : option string
}.

(** The argument the framework hands to a tool: a string, or a dict. *)
Inductive ToolInput :=
| InStr (s : string)
| InDict (d : list (string * string)).

Fixpoint dict_get (k : string) (d : list (string * string)) : option string :=
  match d with
  | [] => None
  | (k', v) :: r => if String.eqb k k' then Some v else dict_get k r
  end.

(** The dict [formatted_results] that [tavily_search_tool] serialises. *)
Record NewsArticle := {
  na_title : string;
  na_content : string;
  na_url : string;
  na_published_date : string
}.
Record NewsImage := { ni_url : string; ni_description : string }.
Record FormattedResults := {
  news_articles : list NewsArticle;
  fr_images : list NewsImage
}.

(** [f"{x:.2f}"] of a duration given in hundredths of a second. *)
Definition fmt_2f (d : nat) : string :=
  PyStr.of_nat (d / 100) ++ "." ++
  PyStr.of_nat (d mod 100 / 10) ++ PyStr.of_nat (d mod 10).

Section Program.

Variable W : World.
Variable cfg : Config.

(** Library functions the program only passes values through:
    [json.dumps(_, indent=2)] and [str] of a dict. *)
Variable json_dumps : FormattedResults -> string.
Variable str_dict : list (string * string) -> string.

(** *** Primitive actions *)

Definition log (lvl : Level) (msg : string) : M unit := emit (ELog lvl msg).
Definition print (msg : string) : M unit := emit (EPrint msg).
Definition sleep (seconds : nat) : M unit := emit (ESleep seconds).

(** [requests.post(...)]: the call is made, then it returns a response or
    raises. *)
Definition requests_post (r : Request) : M Response :=
  fun tr => (http_reply W (count is_post tr) r, EPost r :: tr).

(** [response.raise_for_status()] *)
Definition raise_for_status (r : Response) : M unit :=
  match status_error r with
  | Some msg => raise (Exn "HTTPError" msg)
  | None => ret tt
  end.

(** [response.json()] *)
Definition response_json (r : Response) : M SearchData :=
  match resp_json r with
  | inl e => raise e
  | inr d => ret d
  end.

(** [completion(model=..., messages=[...], temperature=0.7,
    max_tokens=400, timeout=30)] followed by
    [response["choices"][0]["message"]["content"]]: both sit in the same
    [try], so a malformed response is one more way of raising. *)
Definition completion (prompt : string) : M string :=
  fun tr => (llm_reply W (count is_completion tr) prompt,
             ECompletion ("groq/" ++ GROQ_MODEL_NAME) prompt 400 30 :: tr).

Definition time_time : M nat :=
  fun tr => (inr (clock W (count is_clock tr)), EClock :: tr).

(** [datetime.now().strftime(fmt)] *)
Definition now_strftime (fmt : string) : M string :=
  fun tr => (inr (now W (count is_now tr) fmt), ENow :: tr).

(** *** [tavily_search_tool] *)

Definition get_or_empty (v : option string) : string :=
  match v with Some s => s | None => "" end.

Definition format_article (r : Article) : NewsArticle :=
  {| na_title := get_or_empty (title r);
     na_content := get_or_empty (content r);
     na_url := get_or_empty (url r);
     na_published_date := get_or_empty (published_date r) |}.

(** The comprehension over [images[:2]]; [img.get] raises on a string. *)
Fixpoint format_images (imgs : list ImageItem) : M (list NewsImage) :=
  match imgs with
  | [] => ret []
  | ImgObj u d :: rest =>
      tl <- format_images rest ;;
      ret ({| ni_url := get_or_empty u;
              ni_description := get_or_empty d |} :: tl)
  | ImgStr _ :: _ =>
      raise (Exn "AttributeError" "'str' object has no attribute 'get'")
  end.

Definition tavily_query (query : ToolInput) : string :=
  match query with
  | InStr s => s
  | InDict d =>
      match dict_get "query" d with
      | Some q => q
      | None => match dict_get "value" d with
                | Some q => q
                | None => str_dict d
                end
      end
  end.

Definition formatted_results (data : SearchData) : M FormattedResults :=
  let results := match results data with Some l => l | None => [] end in
  let images := match images data with Some l => l | None => [] end in
  imgs <- format_images (firstn 2 images) ;;
  ret {| news_articles := map format_article (firstn 3 results);
         fr_images := imgs |}.

Definition search_request (query : string) : Request :=
  {| req_url := "https://api.tavily.com/search";
     req_headers := [("Content-Type", "application/json")];
     req_json := [("api_key", of_config (TAVILY_API_KEY cfg));
                  ("query", VStr query);
                  ("search_depth", VStr "advanced");
                  ("max_results", VInt 5);
                  ("include_images", VBool true);
                  ("include_answer", VBool true)];
     req_timeout := Some 30 |}.

Definition tavily_search_tool (query : ToolInput) : M string :=
  let query := tavily_query query in
  try_except
    (log INFO ("Searching for: " ++ query) ;;
     response <- requests_post (search_request query) ;;
     raise_for_status response ;;
     data <- response_json response ;;
     fr <- formatted_results data ;;
     ret (json_dumps fr))
    (fun e =>
       log ERROR ("Error in Tavily search: " ++ str_exn e) ;;
       ret ("Error searching: " ++ str_exn e)).

(** *** [telegram_sender_tool] and [send_to_telegram_direct] *)

Definition telegram_url : string :=
  "https://api.telegram.org/bot" ++ PyStr.of_opt (TELEGRAM_BOT_TOKEN cfg)
  ++ "/sendMessage".

Definition tool_request (message : string) : Request :=
  {| req_url := telegram_url; req_headers := [];
     req_json := [("chat_id", of_config (TELEGRAM_CHAT_ID cfg));
                  ("text", VStr message);
                  ("parse_mode", VStr "Markdown")];
     req_timeout := Some 30 |}.

Definition telegram_sender_tool (message : string) : M string :=
  try_except
    (log INFO "Sending message to Telegram..." ;;
     response <- requests_post (tool_request message) ;;
     raise_for_status response ;;
     ret "✅ Message sent successfully to Telegram channel")
    (fun e =>
       log ERROR ("Telegram error: " ++ str_exn e) ;;
       ret ("❌ Error sending to Telegram: " ++ str_exn e)).

Definition direct_request (message : string) : Request :=
  {| req_url := telegram_url; req_headers := [];
     req_json := [("chat_id", of_config (TELEGRAM_CHAT_ID cfg));
                  ("text", VStr message)];
     req_timeout := None |}.

Definition send_to_telegram_direct (message : string) : M string :=
  try_except
    (response <- requests_post (direct_request message) ;;
     raise_for_status response ;;
     ret "Message sent successfully")
    (fun e => ret ("Error sending Telegram message: " ++ str_exn e)).

(** *** [fetch_market_news] *)

Definition news_request : Request :=
  {| req_url := "https://api.tavily.com/search";
     req_headers := [("Content-Type", "application/json")];
     req_json :=
       [("api_key", of_config (TAVILY_API_KEY cfg));
        ("query", VStr "today US stock market summary, S&P 500, Nasdaq, Dow Jones, major movers");
        ("search_depth", VStr "advanced");
        ("max_results", VInt 3)];
     req_timeout := None |}.

(** [r[key]] on a dict: [KeyError] when the key is missing. *)
Definition getitem (key : string) (v : option string) : M string :=
  match v with
  | Some s => ret s
  | None => raise (Exn "KeyError" ("'" ++ key ++ "'"))
  end.

(** [f"- {r['title']}: {r['url']}"] *)
Definition news_line (r : Article) : M string :=
  t <- getitem "title" (title r) ;;
  u <- getitem "url" (url r) ;;
  ret ("- " ++ t ++ ": " ++ u).

(** The comprehension [[... for r in results]]: every result, in order. *)
Fixpoint news_lines (rs : list Article) : M (list string) :=
  match rs with
  | [] => ret []
  | r :: rest =>
      l <- news_line r ;;
      tl <- news_lines rest ;;
      ret (l :: tl)
  end.

Definition fetch_market_news : M string :=
  try_except
    (response <- requests_post news_request ;;
     raise_for_status response ;;
     data <- response_json response ;;
     let results := match results data with Some l => l | None => [] end in
     match results with
     | [] => ret "No fresh market news found."
     | _ =>
         lines <- news_lines results ;;
         ret (PyStr.join PyStr.newline lines)
     end)
    (fun e => ret ("Error fetching news: " ++ str_exn e)).

(** *** [generate_market_wrap] *)

Definition retries : nat := 3.

Definition is_rate_limit (e : exn) : bool :=
  PyStr.contains "rate limit" (PyStr.lower (str_exn e))
  || PyStr.contains "limit" (PyStr.lower (str_exn e)).

Definition is_server_error (e : exn) : bool :=
  PyStr.contains "internal server error" (PyStr.lower (str_exn e)).

(** One pass through the body of [for i in range(retries)]: [Some v] is
    [return v], [None] falls through to the next iteration. *)
Definition attempt (prompt : string) (i : nat) : M (option string) :=
  try_except
    (text <- completion prompt ;;
     ret (Some text))
    (fun e =>
       if is_rate_limit e then
         let wait_time := (i + 1) * 15 in
         log INFO ("Rate limit reached, waiting "
                   ++ PyStr.of_nat wait_time ++ " seconds...") ;;
         sleep wait_time ;;
         ret None
       else if is_server_error e then
         let wait_time := (i + 1) * 10 in
         log INFO ("Groq server error, waiting "
                   ++ PyStr.of_nat wait_time ++ " seconds...") ;;
         sleep wait_time ;;
         ret None
       else
         log ERROR ("LLM Error: " ++ str_exn e) ;;
         ret (Some ("Error generating summary: " ++ str_exn e))).

(** The loop over the indices still to run; falling out of it returns
    the sentinel. *)
Fixpoint attempts (prompt : string) (indices : list nat) : M string :=
  match indices with
  | [] => ret "Rate limit exceeded or LLM error after retries."
  | i :: rest =>
      r <- attempt prompt i ;;
      match r with
      | Some v => ret v
      | None => attempts prompt rest
      end
  end.

Definition wrap_prompt (news : string) : string :=
  "Write a concise (<300 words) US market wrap based on the news:"
  ++ PyStr.newline ++ news.

Definition generate_market_wrap (news : string) : M string :=
  attempts (wrap_prompt news) (seq 0 retries).

(** *** [crew.kickoff()] *)

Fixpoint run_framework (f : Framework) : M string :=
  match f with
  | Finish result => ret result
  | Abort e => raise e
  | UseTool message k =>
      observation <- telegram_sender_tool message ;;
      run_framework (k observation)
  end.

Definition crew_kickoff : M string :=
  emit EKickoff ;; run_framework (crew W).

(** *** [validate_environment] and [main] *)

Definition required_vars : list (string * option string) :=
  [("GROQ_API_KEY", GROQ_API_KEY cfg);
   ("TAVILY_API_KEY", TAVILY_API_KEY cfg);
   ("TELEGRAM_BOT_TOKEN", TELEGRAM_BOT_TOKEN cfg);
   ("TELEGRAM_CHAT_ID", TELEGRAM_CHAT_ID cfg)].

(** [not val] for a value that is a string or [None] *)
Definition falsy (val : option string) : bool :=
  match val with
  | None => true
  | Some s => String.eqb s ""
  end.

Definition missing : list string :=
  map fst (filter (fun p => falsy (snd p)) required_vars).

Definition validate_environment : M bool :=
  match missing with
  | [] => ret true
  | _ =>
      log ERROR ("Missing required environment variables: "
                 ++ PyStr.join ", " missing) ;;
      ret false
  end.

Definition banner : string := PyStr.repeat "=" 80.

Definition fallback_message (date summary stamp : string) : string :=
  "📊 **US Market Wrap - Fallback (" ++ date ++ ")** 📊"
  ++ PyStr.newline ++ PyStr.newline
  ++ summary
  ++ PyStr.newline ++ PyStr.newline
  ++ "🕐 Generated: " ++ stamp ++ " EST" ++ PyStr.newline.

(** The inner [try] of [main]: the fallback executor. *)
Definition fallback : M unit :=
  log INFO "🔄 Attempting fallback execution..." ;;
  news <- fetch_market_news ;;
  summary <- generate_market_wrap news ;;
  date <- now_strftime "%Y-%m-%d" ;;
  stamp <- now_strftime "%Y-%m-%d %H:%M:%S" ;;
  telegram_result <-
    send_to_telegram_direct (fallback_message date summary stamp) ;;
  log INFO ("Fallback execution result: " ++ telegram_result) ;;
  print ("🔄 Fallback completed: " ++ telegram_result).

(** The outer [try] of [main]: the primary pipeline. *)
Definition primary : M (option string) :=
  log INFO "🤖 Executing CrewAI workflow..." ;;
  start <- time_time ;;
  result <- crew_kickoff ;;
  stop <- time_time ;;
  log INFO ("✅ Workflow completed in " ++ fmt_2f (stop - start)
            ++ " seconds") ;;
  print (PyStr.newline ++ "🎉 CREWAI FINANCIAL MARKET WRAP - COMPLETE") ;;
  print banner ;;
  print result ;;
  print banner ;;
  ret (Some result).

Definition main : M (option string) :=
  log INFO "🚀 Starting CrewAI Financial Market Wrap Workflow..." ;;
  ok <- validate_environment ;;
  if negb ok then
    print "❌ Environment validation failed. Please check your .env file." ;;
    ret None
  else
    emit (ESetEnv "CREWAI_DISABLE_TELEMETRY" "true") ;;
    try_except primary
      (fun e =>
         log ERROR ("❌ Workflow failed: " ++ str_exn e) ;;
         print (PyStr.newline ++ "🔧 Workflow Error: " ++ str_exn e) ;;
         try_except (fallback ;; ret None)
           (fun fb_error =>
              log ERROR ("❌ Fallback failed: " ++ str_exn fb_error) ;;
              print ("❌ Complete system failure: " ++ str_exn fb_error) ;;
              ret None)).

End Program.

(** *** Module level: what runs at import, before [main] *)

(** Lines 21-27: the four [os.getenv] reads, then
    [os.environ["GROQ_API_KEY"] = GROQ_API_KEY], which raises [TypeError]
    when the value is [None]. *)
Definition load_config (environ : string -> option string) : M Config :=
  let c := {| GROQ_API_KEY := environ "GROQ_API_KEY";
              TAVILY_API_KEY := environ "TAVILY_API_KEY";
              TELEGRAM_BOT_TOKEN := environ "TELEGRAM_BOT_TOKEN";
              TELEGRAM_CHAT_ID := environ "TELEGRAM_CHAT_ID" |} in
  match GROQ_API_KEY c with
  | None => raise (Exn "TypeError" "str expected, not NoneType")
  | Some v => emit (ESetEnv "GROQ_API_KEY" v) ;; ret c
  end.

(** Lines 205-214: the [try] around [LLM(...)].  The object itself only
    travels into the framework. *)
Definition init_llm (W : World) : M unit :=
  try_except
    (match llm_init W with
     | Some e => raise e
     | None => ret tt
     end ;;
     emit (ELog INFO ("Successfully initialized Groq LLM with model: "
                      ++ GROQ_MODEL_NAME)))
    (fun e => emit (ELog ERROR ("LLM initialization error: " ++ str_exn e))).

(** The script run as [__main__] in an environment (after [load_dotenv]):
    an exception at module level ends the process before [main] is
    called.  The agents, the tasks and the crew built in between are
    framework objects; what the crew does is [crew W]. *)
Definition script (W : World) (environ : string -> option string)
  : M (option string) :=
  cfg <- load_config environ ;;
  init_llm W ;;
  main W cfg.

(** One invocation, from the empty trace. *)
Definition run (W : World) (environ : string -> option string)
  : (exn + option string) * Trace :=
  script W environ [].

(** *** [image_search_tool] *)

(** One dict of [relevant_images]. *)
Record RelevantImage := {
  ri_url : string;
  ri_description : string;
  ri_context : string
}.

Definition chart_keywords : list string :=
  ["chart"; "graph"; "market"; "stock"; "trading"; "financial"].

(** [any(keyword in description.lower() for keyword in [...])] *)
Definition is_relevant (description : string) : bool :=
  existsb (fun keyword => PyStr.contains keyword (PyStr.lower description))
          chart_keywords.

(** The dict returned in place of the images when anything fails. *)
Definition chart_placeholder : RelevantImage :=
  {| ri_url := ""; ri_description := "Chart placeholder";
     ri_context := "Error loading image" |}.

Section ImageTool.

Variable W : World.
Variable cfg : Config.

(** [json.dumps(_, indent=indent)] on a list of image dicts ([None] for the
    call without [indent]), and [str] of a dict. *)
Variable json_dumps_images : option nat -> list RelevantImage -> string.
Variable str_dict : list (string * string) -> string.

Definition image_context (search_context : ToolInput) : string :=
  match search_context with
  | InStr s => s
  | InDict d =>
      match dict_get "search_context" d with
      | Some c => c
      | None => match dict_get "value" d with
                | Some c => c
                | None => str_dict d
                end
      end
  end.

Definition image_query (search_context : string) : string :=
  "financial charts stock market " ++ search_context
  ++ " S&P 500 Nasdaq Dow Jones".

Definition image_request (query : string) : Request :=
  {| req_url := "https://api.tavily.com/search";
     req_headers := [("Content-Type", "application/json")];
     req_json := [("api_key", of_config (TAVILY_API_KEY cfg));
                  ("query", VStr query);
                  ("search_depth", VStr "basic");
                  ("max_results", VInt 3);
                  ("include_images", VBool true)];
     req_timeout := Some 20 |}.

(** The loop [for img in images[:2]] with [relevant_images.append], from
    the list collected so far; [img.get] raises on a string. *)
Fixpoint collect_images (imgs : list ImageItem)
    (relevant_images : list RelevantImage) : M (list RelevantImage) :=
  match imgs with
  | [] => ret relevant_images
  | ImgObj u d :: rest =>
      if is_relevant (get_or_empty d) then
        collect_images rest
          (relevant_images
           ++ [{| ri_url := get_or_empty u;
                  ri_description := get_or_empty d;
                  ri_context := "Market visualization" |}])%list
      else collect_images rest relevant_images
  | ImgStr _ :: _ =>
      raise (Exn "AttributeError" "'str' object has no attribute 'get'")
  end.

Definition image_search_tool (search_context : ToolInput) : M string :=
  let search_context := image_context search_context in
  let query := image_query search_context in
  try_except
    (response <- requests_post W (image_request query) ;;
     raise_for_status response ;;
     data <- response_json response ;;
     let images := match images data with Some l => l | None => [] end in
     relevant_images <- collect_images (firstn 2 images) [] ;;
     ret (json_dumps_images (Some 2) relevant_images))
    (fun e =>
       log ERROR ("Error finding images: " ++ str_exn e) ;;
       ret (json_dumps_images None [chart_placeholder])).

End ImageTool.

(** ** Sample worlds and environments *)

Module Samples.

Definition ok_response : Response :=
  {| status_error := None;
     resp_json := inr {| results := None; images := None |} |}.

Definition rate_limited : exn :=
  Exn "RateLimitError" "Rate limit reached for model llama-3.1-8b-instant".
Definition context_limit : exn :=
  Exn "BadRequestError" "Context length LIMIT exceeded".
Definition both_markers : exn :=
  Exn "APIError" "Internal Server Error: upstream limit hit".
Definition server_error : exn :=
  Exn "InternalServerError" "Internal Server Error".
Definition bad_key : exn :=
  Exn "AuthenticationError" "Invalid API Key".

(** A world that answers every post with 200, every completion with the
    scripted answer, and whose framework does [f]. *)
Definition world (llm : nat -> exn + string) (f : Framework) : World :=
  {| http_reply := fun _ _ => inr ok_response;
     llm_reply := fun n _ => llm n;
     crew := f;
llm_init := None;
     clock := fun n => 100 * n;
     now := fun _ fmt => fmt |}.

Definition full_config : Config :=
  {| GROQ_API_KEY := Some "gsk";
     TAVILY_API_KEY := Some "tvly";
     TELEGRAM_BOT_TOKEN := Some "42:token";
     TELEGRAM_CHAT_ID := Some "@channel" |}.

End Samples.

(** ** Vocabulary of the properties *)

(** Why a post failed, if it did: [requests.post] raised, or
    [raise_for_status] did. *)
Definition post_failure (W : World) (n : nat) (r : Request) : option string :=
  match http_reply W n r with
  | inl e => Some (str_exn e)
  | inr response => status_error response
  end.

(** An article that has both keys [fetch_market_news] indexes. *)
Definition complete (r : Article) : bool :=
  match title r, url r with
  | Some _, Some _ => true
  | _, _ => false
  end.

(** The digest line of a complete article. *)
Definition line_of (r : Article) : string :=
  "- " ++ get_or_empty (title r) ++ ": " ++ get_or_empty (url r).

(** How many of the results [rs] have their line in a digest. *)
Definition results_kept (digest : string) (rs : list Article) : nat :=
  length (filter (fun r => PyStr.contains (line_of r) digest) rs).

Module FiveResults.

Definition article (t u : string) : Article :=
  {| title := Some t; content := Some "..."%string; url := Some u;
     published_date := None |}.

Definition five : list Article :=
  [article "Markets rally" "https://n.example/1";
   article "Fed holds rates" "https://n.example/2";
   article "Tech leads Nasdaq" "https://n.example/3";
   article "Oil slips" "https://n.example/4";
   article "Dow ends flat" "https://n.example/5"].

Definition response : Response :=
  {| status_error := None;
     resp_json := inr {| results := Some five; images := None |} |}.

(** The search service answers every request with the five results. *)
Definition world : World :=
  {| http_reply := fun _ _ => inr response;
     llm_reply := fun _ _ => inr "Stocks rose today."%string;
     crew := Finish "done";
llm_init := None;
     clock := fun n => 100 * n;
     now := fun _ fmt => fmt |}.

Definition digest : string :=
  PyStr.join PyStr.newline
    ["- Markets rally: https://n.example/1";
     "- Fed holds rates: https://n.example/2";
     "- Tech leads Nasdaq: https://n.example/3";
     "- Oil slips: https://n.example/4";
     "- Dow ends flat: https://n.example/5"]%string.

End FiveResults.

Definition has_key (k : string) (payload : list (string * PyVal)) : bool :=
  existsb (fun p => String.eqb (fst p) k) payload.

(** A post to the Telegram [sendMessage] endpoint in the shape
    [telegram_sender_tool] sends it (with [parse_mode]): the primary path's
    delivery. *)
Definition is_tool_delivery (cfg : Config) (e : Event) : bool :=
  match e with
  | EPost r => String.eqb (req_url r) (telegram_url cfg)
               && has_key "parse_mode" (req_json r)
  | _ => false
  end.

(** A post to the same endpoint in the shape [send_to_telegram_direct]
    sends it (no [parse_mode]): the fallback's delivery. *)
Definition is_direct_delivery (cfg : Config) (e : Event) : bool :=
  match e with
  | EPost r => String.eqb (req_url r) (telegram_url cfg)
               && negb (has_key "parse_mode" (req_json r))
  | _ => false
  end.

(** A post to the search service. *)
Definition is_search (e : Event) : bool :=
  match e with
  | EPost r => String.eqb (req_url r) "https://api.tavily.com/search"
  | _ => false
  end.

(** The report of total failure printed by the last handler of [main]. *)
Definition is_total_failure (e : Event) : bool :=
  match e with
  | EPrint msg => String.prefix "❌ Complete system failure: " msg
  | _ => false
  end.

(** What the retry loop leaves in the trace. *)
Definition is_wrap_event (e : Event) : bool :=
  match e with
  | ECompletion _ _ _ _ | ELog _ _ | ESleep _ => true
  | _ => false
  end.

(** What the framework's use of the send tool leaves in the trace. *)
Definition is_tool_event (cfg : Config) (e : Event) : bool :=
  match e with
  | ELog _ _ => true
  | EPost _ => is_tool_delivery cfg e
  | _ => false
  end.

(** The trace at the point where [main] calls [crew.kickoff()]. *)
Definition kickoff_point (tr : Trace) : Trace :=
  ([EClock;
   ELog INFO "🤖 Executing CrewAI workflow...";
   ESetEnv "CREWAI_DISABLE_TELEMETRY" "true";
   ELog INFO "🚀 Starting CrewAI Financial Market Wrap Workflow..."]
  ++ tr)%list.

Module BothDeliver.

(** The send stage calls the send tool once; the model call that follows
    the tool's observation is rate-limited, so [kickoff] raises. *)
Definition framework : Framework :=
  UseTool "*US Market Wrap*" (fun _ => Abort Samples.rate_limited).

Definition world : World :=
  Samples.world (fun _ => inr "Stocks rose today."%string) framework.

Definition environ (k : string) : option string :=
  Some ("value of " ++ k)%string.

Definition cfg : Config :=
  {| GROQ_API_KEY := environ "GROQ_API_KEY";
     TAVILY_API_KEY := environ "TAVILY_API_KEY";
     TELEGRAM_BOT_TOKEN := environ "TELEGRAM_BOT_TOKEN";
     TELEGRAM_CHAT_ID := environ "TELEGRAM_CHAT_ID" |}.

End BothDeliver.

Module AllDown.

(** The primary pipeline raises, and no HTTP request gets through. *)
Definition world : World :=
  {| http_reply := fun _ _ => inl (Exn "ConnectionError" "no route to host");
     llm_reply := fun _ _ => inr "Stocks rose today."%string;
     crew := Abort (Exn "RuntimeError" "stage failed");
llm_init := Some (Exn "ImportError" "provider not installed");
     clock := fun n => 100 * n;
     now := fun _ fmt => fmt |}.

End AllDown.

(** An image entry that is a bare URL string rather than a dict. *)
Definition is_bare (i : ImageItem) : bool :=
  match i with ImgStr _ => true | ImgObj _ _ => false end.

(** The image dicts whose description names a chart keyword, in order. *)
Fixpoint relevant_of (imgs : list ImageItem) : list RelevantImage :=
  match imgs with
  | [] => []
  | ImgObj u d :: rest =>
      if is_relevant (get_or_empty d)
      then {| ri_url := get_or_empty u;
              ri_description := get_or_empty d;
              ri_context := "Market visualization" |} :: relevant_of rest
      else relevant_of rest
  | ImgStr _ :: rest => relevant_of rest
  end.

(** A post that carries a timeout. *)
Definition is_timed_post (e : Event) : bool :=
  match e with
  | EPost r => match req_timeout r with Some _ => true | None => false end
  | _ => false
  end.

(** A completion call for a prompt other than [prompt]. *)
Definition is_other_prompt (prompt : string) (e : Event) : bool :=
  match e with
  | ECompletion _ p _ _ => negb (String.eqb p prompt)
  | _ => false
  end.

Module Charts.

Definition three : list ImageItem :=
  [ImgObj (Some "https://i.example/spx.png") (Some "S&P 500 daily CHART");
   ImgObj (Some "https://i.example/ceo.png") (Some "Portrait of a CEO");
   ImgObj (Some "https://i.example/ndx.png") (Some "Nasdaq stock graph")].

Definition mixed : list ImageItem :=
  [ImgObj (Some "https://i.example/spx.png") (Some "S&P 500 daily CHART");
   ImgStr "https://i.example/raw.png"].

Definition world (imgs : list ImageItem) : World :=
  {| http_reply := fun _ _ =>
       inr {| status_error := None;
              resp_json := inr {| results := None; images := Some imgs |} |};
     llm_reply := fun _ _ => inr ""%string;
     crew := Finish ""; llm_init := None; clock := fun _ => 0;
     now := fun _ f => f |}.

(** A stand-in for [json.dumps]: the descriptions, one per line. *)
Definition dumps (indent : option nat) (l : list RelevantImage) : string :=
  PyStr.join PyStr.newline (map ri_description l).

End Charts.

(** The key whose lookup fails first when the digest lines are built:
    articles in order, ["title"] before ["url"]. *)
Fixpoint first_missing_key (rs : list Article) : option string :=
  match rs with
  | [] => None
  | r :: rest =>
      match title r, url r with
      | None, _ => Some "title"
      | Some _, None => Some "url"
      | Some _, Some _ => first_missing_key rest
      end
  end.

(** The backoff after a transient error on the attempt of index [i]. *)
Definition backoff (i : nat) (e : exn) : nat :=
  if is_rate_limit e then (i + 1) * 15 else (i + 1) * 10.

Module Incomplete.

(** Two results, the second without a "url". *)
Definition data : SearchData :=
  {| results := Some [FiveResults.article "Markets rally" "u1";
                      {| title := Some "Fed holds rates"; content := None;
                         url := None; published_date := None |}];
     images := None |}.

Definition response : Response :=
  {| status_error := None; resp_json := inr data |}.

Definition world : World :=
  {| http_reply := fun _ _ => inr response;
     llm_reply := fun _ _ => inr ""%string;
     crew := Finish ""; llm_init := None; clock := fun _ => 0;
     now := fun _ f => f |}.

End Incomplete.

Definition is_kickoff (e : Event) : bool :=
  match e with EKickoff => true | _ => false end.

(** A configuration value that is set and not the empty string. *)
Definition is_set (v : option string) : bool :=
  match v with
  | Some s => negb (String.eqb s "")
  | None => false
  end.

Definition all_set (cfg : Config) : bool :=
  is_set (GROQ_API_KEY cfg) && is_set (TAVILY_API_KEY cfg)
  && is_set (TELEGRAM_BOT_TOKEN cfg) && is_set (TELEGRAM_CHAT_ID cfg).

(** * Properties *)

Local Open Scope list_scope.

(** ** The string functions on samples *)

Example lower_mixed : PyStr.lower "Rate LIMIT [429]" = "rate limit [429]".
Proof. reflexivity. Qed.

Example contains_inner : PyStr.contains "limit" "rate limit reached" = true.
Proof. reflexivity. Qed.

Example contains_absent : PyStr.contains "limit" "invalid api key" = false.
Proof. reflexivity. Qed.

Example join_three : PyStr.join ", " ["a"; "b"; "c"] = "a, b, c".
Proof. reflexivity. Qed.

Example of_nat_45 : PyStr.of_nat 45 = "45" /\ PyStr.of_nat 0 = "0".
Proof. split; reflexivity. Qed.

Example fmt_2f_sample : fmt_2f 1234 = "12.34" /\ fmt_2f 5 = "0.05".
Proof. split; reflexivity. Qed.

Example wrap_always_limited :
  generate_market_wrap
    (Samples.world (fun _ => inl Samples.rate_limited) (Finish "")) "n" []
  = (inr "Rate limit exceeded or LLM error after retries.",
     [ESleep 45; ELog INFO "Rate limit reached, waiting 45 seconds...";
      ECompletion "groq/llama-3.1-8b-instant" (wrap_prompt "n") 400 30;
      ESleep 30; ELog INFO "Rate limit reached, waiting 30 seconds...";
      ECompletion "groq/llama-3.1-8b-instant" (wrap_prompt "n") 400 30;
      ESleep 15; ELog INFO "Rate limit reached, waiting 15 seconds...";
      ECompletion "groq/llama-3.1-8b-instant" (wrap_prompt "n") 400 30]).
Proof. reflexivity. Qed.

(** ** Traces: counting over appended events *)

Lemma count_app (p : Event -> bool) (d tr : Trace) :
  count p (d ++ tr) = count p d + count p tr.
Proof. unfold count. now rewrite filter_app, length_app. Qed.

Lemma sleeps_app (d tr : Trace) : sleeps (d ++ tr) = sleeps d ++ sleeps tr.
Proof.
  induction d as [|e d IH]; [reflexivity|].
  destruct e; simpl; now rewrite ?IH.
Qed.

(** ** Substrings *)

Lemma prefix_split (a s : string) :
  String.prefix a s = true -> exists r, s = (a ++ r)%string.
Proof.
  revert s; induction a as [|c a IH]; intros s H.
  - now exists s.
  - destruct s as [|c' s]; simpl in H; [discriminate|].
    destruct (Ascii.ascii_dec c c') as [->|]; [|discriminate].
    destruct (IH _ H) as [r ->]. now exists r.
Qed.

Lemma contains_String (needle : string) (c : ascii) (hay : string) :
  PyStr.contains needle hay = true ->
  PyStr.contains needle (String c hay) = true.
Proof.
  intros H. simpl.
  destruct needle as [|c' n']; [reflexivity|].
  destruct (Ascii.ascii_dec c' c); [destruct (String.prefix n' hay)|]; auto.
Qed.

(** A message matching ["rate limit"] matches ["limit"] too: the first
    disjunct of the rate-limit test is subsumed by the second. *)
Lemma rate_limit_is_limit (s : string) :
  PyStr.contains "rate limit" s = true -> PyStr.contains "limit" s = true.
Proof.
  induction s as [|c s IH]; [discriminate|].
  intros H. unfold PyStr.contains in H; fold PyStr.contains in H.
  destruct (String.prefix "rate limit" (String c s)) eqn:P.
  - destruct (prefix_split _ _ P) as [r E]. rewrite E. cbn. now destruct r.
  - apply contains_String. now apply IH.
Qed.

Lemma is_rate_limit_limit (e : exn) :
  is_rate_limit e = PyStr.contains "limit" (PyStr.lower (str_exn e)).
Proof.
  unfold is_rate_limit.
  destruct (PyStr.contains "rate limit" _) eqn:R; [|reflexivity].
  now rewrite (rate_limit_is_limit _ R).
Qed.

(** ** The retry loop *)

Section Retry.

Variable W : World.
Variable prompt : string.

Let call : Event :=
  ECompletion ("groq/" ++ GROQ_MODEL_NAME)%string prompt 400 30.

(** What one pass does, by the answer of the model to this call. *)
Lemma attempt_success i tr text :
  llm_reply W (count is_completion tr) prompt = inr text ->
  attempt W prompt i tr = (inr (Some text), call :: tr).
Proof.
  intros H. unfold attempt, try_except, bind, completion. now rewrite H.
Qed.

Lemma attempt_rate_limit i tr e :
  llm_reply W (count is_completion tr) prompt = inl e ->
  is_rate_limit e = true ->
  attempt W prompt i tr =
  (inr None,
   [ESleep ((i + 1) * 15);
    ELog INFO ("Rate limit reached, waiting "
               ++ PyStr.of_nat ((i + 1) * 15) ++ " seconds...")%string;
    call] ++ tr).
Proof.
  intros H R. unfold attempt, try_except, bind, completion.
  now rewrite H, R.
Qed.

Lemma attempt_server_error i tr e :
  llm_reply W (count is_completion tr) prompt = inl e ->
  is_rate_limit e = false -> is_server_error e = true ->
  attempt W prompt i tr =
  (inr None,
   [ESleep ((i + 1) * 10);
    ELog INFO ("Groq server error, waiting "
               ++ PyStr.of_nat ((i + 1) * 10) ++ " seconds...")%string;
    call] ++ tr).
Proof.
  intros H R S. unfold attempt, try_except, bind, completion.
  now rewrite H, R, S.
Qed.

Lemma attempt_other i tr e :
  llm_reply W (count is_completion tr) prompt = inl e ->
  is_rate_limit e = false -> is_server_error e = false ->
  attempt W prompt i tr =
  (inr (Some ("Error generating summary: " ++ str_exn e)%string),
   [ELog ERROR ("LLM Error: " ++ str_exn e)%string; call] ++ tr).
Proof.
  intros H R S. unfold attempt, try_except, bind, completion.
  now rewrite H, R, S.
Qed.

(** One pass never raises, makes one call, and sleeps at most once, for
    at most [(i + 1) * 15] seconds. *)
Lemma attempt_resources i tr :
  exists r d,
    attempt W prompt i tr = (inr r, d ++ tr)
    /\ count is_completion d = 1
    /\ Forall (fun s => s <= (i + 1) * 15) (sleeps d)
    /\ list_sum (sleeps d) <= (i + 1) * 15
    /\ (r = None -> sleeps d <> []).
Proof.
  destruct (llm_reply W (count is_completion tr) prompt) as [e|text] eqn:H.
  - destruct (is_rate_limit e) eqn:R; [|destruct (is_server_error e) eqn:S].
    + eexists _, _; split; [now apply attempt_rate_limit with (e := e)|].
      unfold call; cbn [sleeps list_sum app]. split; [reflexivity|].
      split; [constructor; [lia|constructor]|].
      split; [simpl; lia|discriminate].
    + eexists _, _; split; [now apply attempt_server_error with (e := e)|].
      unfold call; cbn [sleeps list_sum app]. split; [reflexivity|].
      split; [constructor; [lia|constructor]|].
      split; [simpl; lia|discriminate].
    + eexists _, _; split; [apply attempt_other; eassumption|].
      unfold call; cbn [sleeps list_sum app]. split; [reflexivity|].
      split; [constructor|]. split; [simpl; lia|discriminate].
  - exists (Some text), [call]; split; [apply attempt_success; assumption|].
    unfold call; cbn [sleeps list_sum app]. split; [reflexivity|].
    split; [constructor|]. split; [simpl; lia|discriminate].
Qed.

(** The loop over any list of indices: it returns, makes at most one call
    per index, and its sleeps stay within the rate-limit windows of the
    indices. *)
Lemma attempts_resources indices : forall tr,
  exists v d,
    attempts W prompt indices tr = (inr v, d ++ tr)
    /\ count is_completion d <= length indices
    /\ Forall (fun s => exists i, In i indices /\ s <= (i + 1) * 15)
              (sleeps d)
    /\ list_sum (sleeps d)
       <= list_sum (map (fun i => (i + 1) * 15) indices).
Proof.
  induction indices as [|i rest IH]; intros tr.
  - exists "Rate limit exceeded or LLM error after retries.", [].
    repeat split; simpl; auto.
  - destruct (attempt_resources i tr) as (r & d1 & E1 & C1 & F1 & S1 & _).
    cbn [attempts]. unfold bind at 1. rewrite E1.
    destruct r as [v|].
    + exists v, d1. repeat split.
      * simpl; lia.
      * eapply Forall_impl; [|exact F1].
        intros s Hs; exists i; split; [now left|exact Hs].
      * simpl; lia.
    + destruct (IH (d1 ++ tr)) as (v & d2 & E2 & C2 & F2 & S2).
      exists v, (d2 ++ d1). rewrite E2, app_assoc. repeat split.
      * rewrite count_app. simpl; lia.
      * rewrite sleeps_app. apply Forall_app; split.
        -- eapply Forall_impl; [|exact F2].
           intros s (j & Hj & Hs); exists j; split; [now right|exact Hs].
        -- eapply Forall_impl; [|exact F1].
           intros s Hs; exists i; split; [now left|exact Hs].
      * rewrite sleeps_app, list_sum_app. simpl; lia.
Qed.

End Retry.

(** ** [generate_market_wrap]: calls, sleeps and results *)

(** C2. Whatever the model answers, [generate_market_wrap] returns (it never
    raises) having issued at most 3 completion calls; no single backoff
    sleep is longer than 45 seconds and the sleeps add up to at most
    15 + 30 + 45 = 90 seconds. *)
Theorem generate_market_wrap_bounded (W : World) (news : string) (tr : Trace) :
  exists v d,
    generate_market_wrap W news tr = (inr v, d ++ tr)
    /\ count is_completion d <= 3
    /\ Forall (fun s => s <= 45) (sleeps d)
    /\ list_sum (sleeps d) <= 90.
Proof.
  destruct (attempts_resources W (wrap_prompt news) (seq 0 retries) tr)
    as (v & d & E & C & F & S).
  exists v, d. repeat split; auto.
  eapply Forall_impl; [|exact F].
  intros s (i & Hi & Hs). apply in_seq in Hi. unfold retries in Hi. lia.
Qed.

(** The 90-second budget is reached: three rate-limit errors sleep
    15, 30 and 45 seconds. *)
Example wrap_budget_reached :
  list_sum (sleeps (snd (generate_market_wrap
    (Samples.world (fun _ => inl Samples.rate_limited) (Finish "")) "n" [])))
  = 90.
Proof. reflexivity. Qed.

(** C3. A first-attempt error whose message contains neither "limit" nor
    "internal server error" makes [generate_market_wrap] return the
    error-description string: one completion call, then the error log, no
    sleep, no second call. *)
Theorem non_transient_error_returns_at_once
    (W : World) (news : string) (tr : Trace) (e : exn) :
  llm_reply W (count is_completion tr) (wrap_prompt news) = inl e ->
  PyStr.contains "limit" (PyStr.lower (str_exn e)) = false ->
  PyStr.contains "internal server error" (PyStr.lower (str_exn e)) = false ->
  generate_market_wrap W news tr =
  (inr ("Error generating summary: " ++ str_exn e)%string,
   [ELog ERROR ("LLM Error: " ++ str_exn e)%string;
    ECompletion "groq/llama-3.1-8b-instant" (wrap_prompt news) 400 30] ++ tr).
Proof.
  intros H L S. unfold generate_market_wrap, retries.
  cbn [seq attempts]. unfold bind at 1.
  rewrite (attempt_other W _ 0 tr H); [reflexivity| |exact S].
  now rewrite is_rate_limit_limit.
Qed.

Lemma non_transient_error_returns_at_once_witness :
  generate_market_wrap
    (Samples.world (fun _ => inl Samples.bad_key) (Finish "")) "n" [] =
  (inr "Error generating summary: Invalid API Key",
   [ELog ERROR "LLM Error: Invalid API Key";
    ECompletion "groq/llama-3.1-8b-instant" (wrap_prompt "n") 400 30]).
Proof.
  apply (non_transient_error_returns_at_once
           (Samples.world (fun _ => inl Samples.bad_key) (Finish ""))
           "n" [] (e := Samples.bad_key));
    reflexivity.
Defined.

(** The loop over any indices, when every call fails transiently. *)
Lemma attempts_all_transient (W : World) (prompt : string) (indices : list nat) :
  forall tr,
    (forall k, k < length indices ->
       exists e, llm_reply W (count is_completion tr + k) prompt = inl e
                 /\ is_rate_limit e || is_server_error e = true) ->
    exists d,
      attempts W prompt indices tr =
      (inr "Rate limit exceeded or LLM error after retries."%string, d ++ tr)
      /\ count is_completion d = length indices.
Proof.
  induction indices as [|i rest IH]; intros tr H.
  - now exists [].
  - destruct (H 0) as (e & He & T); [simpl; lia|].
    rewrite Nat.add_0_r in He.
    assert (exists d1, attempt W prompt i tr = (inr None, d1 ++ tr)
                       /\ count is_completion d1 = 1) as (d1 & E1 & C1).
    { destruct (is_rate_limit e) eqn:R.
      - eexists; split; [now apply attempt_rate_limit with (e := e)|].
        reflexivity.
      - simpl in T.
        eexists; split; [now apply attempt_server_error with (e := e)|].
        reflexivity. }
    destruct (IH (d1 ++ tr)) as (d2 & E2 & C2).
    { intros k Hk. destruct (H (S k)) as (e' & He' & T'); [simpl; lia|].
      exists e'. split; [|exact T'].
      rewrite count_app, C1. rewrite <- He'. f_equal. lia. }
    exists (d2 ++ d1). cbn [attempts]. unfold bind at 1.
    rewrite E1, E2, app_assoc, count_app. split; [reflexivity|simpl; lia].
Qed.

(** C4. When the model raises a transient error (message containing "limit"
    or "internal server error") on each of the 3 attempts,
    [generate_market_wrap] returns the sentinel string and does not raise;
    it has then made exactly 3 calls. *)
Theorem transient_exhaustion_returns_sentinel
    (W : World) (news : string) (tr : Trace) :
  (forall k, k < 3 ->
     exists e,
       llm_reply W (count is_completion tr + k) (wrap_prompt news) = inl e
       /\ PyStr.contains "limit" (PyStr.lower (str_exn e))
          || PyStr.contains "internal server error" (PyStr.lower (str_exn e))
          = true) ->
  exists d,
    generate_market_wrap W news tr =
    (inr "Rate limit exceeded or LLM error after retries."%string, d ++ tr)
    /\ count is_completion d = 3.
Proof.
  intros H.
  apply (attempts_all_transient W (wrap_prompt news) (seq 0 retries) tr).
  intros k Hk. destruct (H k Hk) as (e & He & T).
  exists e. split; [exact He|]. now rewrite is_rate_limit_limit.
Qed.

Lemma transient_exhaustion_returns_sentinel_witness :
  exists d,
    generate_market_wrap
      (Samples.world
         (fun n => match n with
                   | 0 => inl Samples.rate_limited
                   | 1 => inl Samples.server_error
                   | _ => inl Samples.context_limit
                   end) (Finish "")) "n" [] =
    (inr "Rate limit exceeded or LLM error after retries."%string, d ++ [])
    /\ count is_completion d = 3.
Proof.
  apply transient_exhaustion_returns_sentinel.
  intros k Hk. simpl.
  destruct k as [|[|[|k]]]; [| | |lia]; eexists; split; reflexivity.
Defined.

(** C5. Rate-limit errors (message containing "rate limit" or "limit") on
    attempts 1 and 2 followed by a successful third attempt:
    [generate_market_wrap] returns the text of the third call, having slept
    15 seconds and then 30 seconds, 45 in all (the wait after attempt
    number [a], counted from 1, is [15 * a]). *)
Theorem two_rate_limits_then_success
    (W : World) (news : string) (tr : Trace) (e1 e2 : exn) (text : string) :
  llm_reply W (count is_completion tr) (wrap_prompt news) = inl e1 ->
  is_rate_limit e1 = true ->
  llm_reply W (count is_completion tr + 1) (wrap_prompt news) = inl e2 ->
  is_rate_limit e2 = true ->
  llm_reply W (count is_completion tr + 2) (wrap_prompt news) = inr text ->
  exists d,
    generate_market_wrap W news tr = (inr text, d ++ tr)
    /\ count is_completion d = 3
    /\ rev (sleeps d) = [15 * 1; 15 * 2]
    /\ list_sum (sleeps d) = 45.
Proof.
  intros H1 R1 H2 R2 H3.
  unfold generate_market_wrap, retries. cbn [seq attempts].
  unfold bind at 1. rewrite (attempt_rate_limit W _ 0 tr H1 R1).
  unfold bind at 1. rewrite (attempt_rate_limit W _ 1 _ (e := e2)); [|
    rewrite count_app; cbn [count filter is_completion length];
    now rewrite Nat.add_comm | exact R2].
  unfold bind at 1. rewrite (attempt_success W _ 2 _ (text := text)); [|
    rewrite !count_app; cbn [count filter is_completion length];
    rewrite <- H3; f_equal; lia].
  cbn [app]. eexists [_; _; _; _; _; _; _].
  split; [reflexivity|]. now cbn.
Qed.

Lemma two_rate_limits_then_success_witness :
  exists d,
    generate_market_wrap
      (Samples.world
         (fun n => match n with
                   | 0 => inl Samples.rate_limited
                   | 1 => inl Samples.context_limit
                   | _ => inr "Stocks rose today."%string
                   end) (Finish "")) "n" [] =
    (inr "Stocks rose today."%string, d ++ [])
    /\ count is_completion d = 3
    /\ rev (sleeps d) = [15 * 1; 15 * 2]
    /\ list_sum (sleeps d) = 45.
Proof.
  apply (two_rate_limits_then_success
           (Samples.world
              (fun n => match n with
                        | 0 => inl Samples.rate_limited
                        | 1 => inl Samples.context_limit
                        | _ => inr "Stocks rose today."%string
                        end) (Finish ""))
           "n" [] (e1 := Samples.rate_limited) (e2 := Samples.context_limit));
    reflexivity.
Defined.

(** C10. The "limit" test comes first in the classification: an error whose
    lower-cased message contains "limit" (whether or not it also contains
    "internal server error", and whatever fault it reports) takes the
    rate-limit branch on attempt index [i]: the rate-limit line is logged
    and the wait is [15 * (i + 1)] seconds, after which the loop goes on;
    neither the 10-second-class wait nor the immediate return happens. *)
Theorem limit_check_takes_precedence
    (W : World) (prompt : string) (i : nat) (tr : Trace) (e : exn) :
  llm_reply W (count is_completion tr) prompt = inl e ->
  PyStr.contains "limit" (PyStr.lower (str_exn e)) = true ->
  attempt W prompt i tr =
  (inr None,
   [ESleep (15 * (i + 1));
    ELog INFO ("Rate limit reached, waiting "
               ++ PyStr.of_nat (15 * (i + 1)) ++ " seconds...")%string;
    ECompletion "groq/llama-3.1-8b-instant" prompt 400 30] ++ tr).
Proof.
  intros H L. rewrite (Nat.mul_comm 15).
  apply attempt_rate_limit with (e := e); [exact H|].
  now rewrite is_rate_limit_limit.
Qed.

Lemma limit_check_takes_precedence_witness :
  is_server_error Samples.both_markers = true
  /\ attempt (Samples.world (fun _ => inl Samples.both_markers) (Finish ""))
       "p" 1 [] =
     (inr None,
      [ESleep 30; ELog INFO "Rate limit reached, waiting 30 seconds...";
       ECompletion "groq/llama-3.1-8b-instant" "p" 400 30]).
Proof.
  split; [reflexivity|].
  apply (limit_check_takes_precedence
           (Samples.world (fun _ => inl Samples.both_markers) (Finish ""))
           "p" 1 [] (e := Samples.both_markers));
    reflexivity.
Defined.

(** ** The delivery calls *)


Lemma prefix_app (a b : string) : String.prefix a (a ++ b)%string = true.
Proof.
  induction a as [|c a IH]; simpl; [now destruct b|].
  destruct (Ascii.ascii_dec c c); [exact IH|congruence].
Qed.

Section Delivery.

Variable W : World.
Variable cfg : Config.

Lemma telegram_sender_tool_run (message : string) (tr : Trace) :
  telegram_sender_tool W cfg message tr =
  match post_failure W (count is_post tr) (tool_request cfg message) with
  | Some msg =>
      (inr ("❌ Error sending to Telegram: " ++ msg)%string,
       [ELog ERROR ("Telegram error: " ++ msg)%string;
        EPost (tool_request cfg message);
        ELog INFO "Sending message to Telegram..."] ++ tr)
  | None =>
      (inr "✅ Message sent successfully to Telegram channel"%string,
       [EPost (tool_request cfg message);
        ELog INFO "Sending message to Telegram..."] ++ tr)
  end.
Proof.
  unfold telegram_sender_tool, post_failure, try_except, bind, log, emit,
    requests_post, raise_for_status.
  cbn [count filter is_post].
  destruct (http_reply W _ _) as [e|response]; [reflexivity|].
  now destruct (status_error response).
Qed.

Lemma send_to_telegram_direct_run (message : string) (tr : Trace) :
  send_to_telegram_direct W cfg message tr =
  (inr match post_failure W (count is_post tr) (direct_request cfg message)
       with
       | Some msg => ("Error sending Telegram message: " ++ msg)%string
       | None => "Message sent successfully"%string
       end,
   EPost (direct_request cfg message) :: tr).
Proof.
  unfold send_to_telegram_direct, post_failure, try_except, bind,
    requests_post, raise_for_status.
  destruct (http_reply W _ _) as [e|response]; [reflexivity|].
  now destruct (status_error response).
Qed.

End Delivery.

(** C9. [telegram_sender_tool] never raises, whatever the message and
    whatever the messaging service does: it makes one post and returns a
    string.  When the post fails (transport error, or a status for which
    [raise_for_status] raises) the string is "❌ Error sending to
    Telegram: " followed by the error text; otherwise it is the success
    line. *)
Theorem telegram_sender_tool_never_raises
    (W : World) (cfg : Config) (message : string) (tr : Trace) :
  exists s d,
    telegram_sender_tool W cfg message tr = (inr s, d ++ tr)
    /\ count is_post d = 1
    /\ s = match post_failure W (count is_post tr) (tool_request cfg message)
           with
           | Some msg => ("❌ Error sending to Telegram: " ++ msg)%string
           | None => "✅ Message sent successfully to Telegram channel"%string
           end
    /\ String.prefix "❌ Error sending to Telegram:" s
       = match post_failure W (count is_post tr) (tool_request cfg message)
         with Some _ => true | None => false end.
Proof.
  rewrite telegram_sender_tool_run.
  destruct (post_failure W _ _) as [msg|]; eexists _, _;
    (split; [reflexivity|]); (split; [reflexivity|]);
    (split; [reflexivity|]).
  - apply (prefix_app "❌ Error sending to Telegram:" (String " " msg)).
  - reflexivity.
Qed.

Example tool_on_connection_error :
  telegram_sender_tool
    {| http_reply := fun _ _ => inl (Exn "ConnectionError" "no route");
       llm_reply := fun _ _ => inr ""%string;
       crew := Finish ""; llm_init := None; clock := fun _ => 0;
now := fun _ f => f |}
    Samples.full_config "hi" [] =
  (inr "❌ Error sending to Telegram: no route"%string,
   [ELog ERROR "Telegram error: no route";
    EPost (tool_request Samples.full_config "hi");
    ELog INFO "Sending message to Telegram..."]).
Proof. reflexivity. Qed.

(** ** The news digests *)

Section Digest.

Variable W : World.
Variable cfg : Config.
Variable json_dumps : FormattedResults -> string.
Variable str_dict : list (string * string) -> string.


Lemma news_lines_complete (rs : list Article) (tr : Trace) :
  forallb complete rs = true ->
  news_lines rs tr = (inr (map line_of rs), tr).
Proof.
  induction rs as [|r rs IH]; [reflexivity|].
  cbn [forallb]. intros H. apply andb_prop in H as [Hr Hrs].
  cbn [news_lines map]. unfold bind at 1. unfold news_line, bind, getitem.
  unfold complete in Hr.
  destruct (title r) as [t|] eqn:T; [|discriminate].
  destruct (url r) as [u|] eqn:U; [|discriminate].
  unfold ret at 1 2 3. rewrite (IH Hrs).
  unfold ret, line_of. now rewrite T, U.
Qed.

(** [fetch_market_news] on a well-formed answer: no truncation, one line
    per result. *)
Lemma fetch_market_news_lines (tr : Trace) (response : Response)
    (data : SearchData) (rs : list Article) :
  http_reply W (count is_post tr) (news_request cfg) = inr response ->
  status_error response = None ->
  resp_json response = inr data ->
  results data = Some rs ->
  forallb complete rs = true ->
  fetch_market_news W cfg tr =
  (inr match rs with
       | [] => "No fresh market news found."%string
       | _ => PyStr.join PyStr.newline (map line_of rs)
       end,
   EPost (news_request cfg) :: tr).
Proof.
  intros H S J R C.
  unfold fetch_market_news, try_except, bind, requests_post,
    raise_for_status, response_json.
  rewrite H, S. unfold ret at 1. cbv beta iota. rewrite J.
  unfold ret at 1. cbv beta iota. rewrite R.
  destruct rs as [|r rs]; [reflexivity|].
  now rewrite (news_lines_complete (r :: rs) _ C).
Qed.

(** [fetch_market_news] never raises and makes exactly one post. *)
Lemma fetch_market_news_run (tr : Trace) :
  exists news,
    fetch_market_news W cfg tr = (inr news, EPost (news_request cfg) :: tr).
Proof.
  unfold fetch_market_news, try_except, bind, requests_post,
    raise_for_status, response_json.
  destruct (http_reply W _ _) as [e|response]; [now eexists|].
  destruct (status_error response); [now eexists|].
  destruct (resp_json response) as [e|data]; [now eexists|].
  unfold ret at 1 2.
  destruct (match results data with Some l => l | None => [] end)
    as [|r rs]; [now eexists|].
  assert (forall l t, snd (news_lines l t) = t) as pure.
  { induction l as [|a l IH]; intros t; [reflexivity|].
    cbn [news_lines]. unfold bind at 1. unfold news_line, bind, getitem.
    destruct (title a); [|reflexivity].
    destruct (url a); [|reflexivity].
    unfold ret at 1 2 3. specialize (IH t).
    destruct (news_lines l t) as [[e|ls] t']; simpl in IH; now subst. }
  specialize (pure (r :: rs) (EPost (news_request cfg) :: tr)).
  destruct (news_lines (r :: rs) _) as [[e|ls] t']; simpl in pure; subst;
    now eexists.
Qed.

(** The images comprehension leaves no event behind. *)
Lemma format_images_pure (imgs : list ImageItem) (tr : Trace) :
  snd (format_images imgs tr) = tr.
Proof.
  induction imgs as [|[u d|s] imgs IH]; [reflexivity| |reflexivity].
  cbn [format_images]. unfold bind.
  destruct (format_images imgs tr) as [[e|l] t]; simpl in *; now subst.
Qed.

(** [tavily_search_tool] on a well-formed answer: either the images part
    raises and the error string is returned, or the serialised dict holds
    the first three results and no other. *)
Lemma tavily_search_tool_run (query : ToolInput) (tr : Trace)
    (response : Response) (data : SearchData) (rs : list Article) :
  let q := tavily_query str_dict query in
  let tr1 := EPost (search_request cfg q)
             :: ELog INFO ("Searching for: " ++ q)%string :: tr in
  http_reply W (count is_post tr) (search_request cfg q) = inr response ->
  status_error response = None ->
  resp_json response = inr data ->
  results data = Some rs ->
  tavily_search_tool W cfg json_dumps str_dict query tr =
  match format_images
          (firstn 2 match images data with Some l => l | None => [] end)
          tr1
  with
  | (inr imgs, t) =>
      (inr (json_dumps
              {| news_articles := map format_article (firstn 3 rs);
                 fr_images := imgs |}), t)
  | (inl e, t) =>
      (inr ("Error searching: " ++ str_exn e)%string,
       ELog ERROR ("Error in Tavily search: " ++ str_exn e)%string :: t)
  end.
Proof.
  intros q tr1 H S J R. subst q tr1.
  unfold tavily_search_tool, try_except, bind, log, emit, requests_post,
    raise_for_status, response_json, formatted_results.
  cbv zeta. unfold count in *. cbn [filter is_post]. rewrite H, S.
  unfold ret at 1. cbv beta iota. rewrite J.
  unfold ret at 1. cbv beta iota. rewrite R.
  unfold bind. now destruct (format_images _ _) as [[e|imgs] t].
Qed.

End Digest.


(** C7, as stated, fails for the fallback news fetch: given a response with
    5 results, the digest [fetch_market_news] returns holds all 5 of them,
    not at most 3. *)
Lemma fetch_market_news_keeps_all_five :
  length FiveResults.five = 5
  /\ fetch_market_news FiveResults.world Samples.full_config [] =
     (inr FiveResults.digest, [EPost (news_request Samples.full_config)])
  /\ results_kept FiveResults.digest FiveResults.five = 5
  /\ ~ results_kept FiveResults.digest FiveResults.five <= 3.
Proof.
  split; [reflexivity|]. split; [reflexivity|].
  assert (results_kept FiveResults.digest FiveResults.five = 5) as K
    by reflexivity.
  split; [exact K|]. rewrite K. lia.
Qed.

(** C7, amended.  On a well-formed search response with results [rs]:
    [tavily_search_tool] serialises the first three results and no more
    (or returns its error string when the images part raises); 
    [fetch_market_news] asks the service for [max_results = 3] and does no
    truncation of its own: its digest has one line for every result of the
    response, in order. *)
Theorem digest_truncation
    (W : World) (cfg : Config)
    (json_dumps : FormattedResults -> string)
    (str_dict : list (string * string) -> string)
    (query : ToolInput) (tr1 tr2 : Trace)
    (response : Response) (data : SearchData) (rs : list Article) :
  status_error response = None ->
  resp_json response = inr data ->
  results data = Some rs ->
  forallb complete rs = true ->
  http_reply W (count is_post tr1)
             (search_request cfg (tavily_query str_dict query))
    = inr response ->
  http_reply W (count is_post tr2) (news_request cfg) = inr response ->
  ((exists fr,
       fst (tavily_search_tool W cfg json_dumps str_dict query tr1)
       = inr (json_dumps fr)
       /\ news_articles fr = map format_article (firstn 3 rs)
       /\ length (news_articles fr) <= 3)
   \/ (exists msg,
       fst (tavily_search_tool W cfg json_dumps str_dict query tr1)
       = inr ("Error searching: " ++ msg)%string))
  /\ In ("max_results"%string, VInt 3) (req_json (news_request cfg))
  /\ fst (fetch_market_news W cfg tr2)
     = inr match rs with
           | [] => "No fresh market news found."%string
           | _ => PyStr.join PyStr.newline (map line_of rs)
           end
  /\ length (map line_of rs) = length rs.
Proof.
  intros S J R C H1 H2. split; [|split; [|split]].
  - rewrite (tavily_search_tool_run W cfg json_dumps str_dict query tr1
               H1 S J R).
    destruct (format_images _ _) as [[e|imgs] t].
    + right. now exists (str_exn e).
    + left. eexists. split; [reflexivity|]. split; [reflexivity|].
      cbn [news_articles]. rewrite length_map, length_firstn. lia.
  - simpl. tauto.
  - now rewrite (fetch_market_news_lines W cfg tr2 H2 S J R C).
  - apply length_map.
Qed.

Lemma digest_truncation_witness :
  ((exists fr,
       fst (tavily_search_tool FiveResults.world Samples.full_config
              (fun fr => PyStr.of_nat (length (news_articles fr)))
              (fun _ => ""%string) (InStr "markets") [])
       = inr (PyStr.of_nat (length (news_articles fr)))
       /\ news_articles fr = map format_article (firstn 3 FiveResults.five)
       /\ length (news_articles fr) <= 3)
   \/ (exists msg,
       fst (tavily_search_tool FiveResults.world Samples.full_config
              (fun fr => PyStr.of_nat (length (news_articles fr)))
              (fun _ => ""%string) (InStr "markets") [])
       = inr ("Error searching: " ++ msg)%string))
  /\ In ("max_results"%string, VInt 3)
        (req_json (news_request Samples.full_config))
  /\ fst (fetch_market_news FiveResults.world Samples.full_config [])
     = inr (PyStr.join PyStr.newline (map line_of FiveResults.five))
  /\ length (map line_of FiveResults.five) = length FiveResults.five.
Proof.
  apply (digest_truncation FiveResults.world Samples.full_config
           (fun fr => PyStr.of_nat (length (news_articles fr)))
           (fun _ => ""%string) (InStr "markets") [] []
           (response := FiveResults.response)
           (data := {| results := Some FiveResults.five; images := None |})
           (rs := FiveResults.five));
    reflexivity.
Defined.

Example tool_keeps_three_of_five :
  fst (tavily_search_tool FiveResults.world Samples.full_config
         (fun fr => PyStr.join "|" (map na_title (news_articles fr)))
         (fun _ => ""%string) (InStr "markets") [])
  = inr "Markets rally|Fed holds rates|Tech leads Nasdaq"%string.
Proof. reflexivity. Qed.

Lemma count_none (p q : Event -> bool) (d : Trace) :
  forallb q d = true -> (forall e, q e = true -> p e = false) ->
  count p d = 0.
Proof.
  intros F H. induction d as [|e d IH]; [reflexivity|].
  cbn [forallb] in F. apply andb_prop in F as [Fe Fd].
  unfold count in *. cbn [filter]. rewrite (H e Fe). now apply IH.
Qed.

Lemma telegram_url_not_search (cfg : Config) :
  String.eqb (telegram_url cfg) "https://api.tavily.com/search" = false.
Proof. reflexivity. Qed.

Lemma tool_request_is_tool_delivery (cfg : Config) (message : string) :
  is_tool_delivery cfg (EPost (tool_request cfg message)) = true.
Proof.
  unfold is_tool_delivery. cbn [req_url req_json tool_request].
  now rewrite String.eqb_refl.
Qed.

Lemma direct_request_is_direct_delivery (cfg : Config) (message : string) :
  is_direct_delivery cfg (EPost (direct_request cfg message)) = true.
Proof.
  unfold is_direct_delivery. cbn [req_url req_json direct_request].
  now rewrite String.eqb_refl.
Qed.

Lemma tool_event_classes (cfg : Config) (e : Event) :
  is_tool_event cfg e = true ->
  is_direct_delivery cfg e = false /\ is_search e = false
  /\ is_completion e = false /\ is_total_failure e = false
  /\ is_clock e = false /\ is_now e = false.
Proof.
  destruct e as [r| | | | | | | |]; try discriminate; [|now auto].
  unfold is_tool_event, is_tool_delivery, is_direct_delivery, is_search.
  intros H. apply andb_prop in H as [U K]. rewrite U, K.
  apply String.eqb_eq in U. rewrite U, telegram_url_not_search. now auto.
Qed.

Lemma wrap_event_classes (cfg : Config) (e : Event) :
  is_wrap_event e = true ->
  is_direct_delivery cfg e = false /\ is_tool_delivery cfg e = false
  /\ is_search e = false /\ is_post e = false
  /\ is_total_failure e = false /\ is_now e = false.
Proof. destruct e; try discriminate; now auto. Qed.

Section RetryEvents.

Variable W : World.
Variable prompt : string.

Lemma attempt_events (i : nat) (tr : Trace) :
  exists r d,
    attempt W prompt i tr = (inr r, d ++ tr)
    /\ forallb is_wrap_event d = true
    /\ count is_completion d = 1.
Proof.
  destruct (llm_reply W (count is_completion tr) prompt) as [e|text] eqn:H.
  - destruct (is_rate_limit e) eqn:R; [|destruct (is_server_error e) eqn:S].
    + eexists _, _; split; [now apply attempt_rate_limit with (e := e)|].
      now split.
    + eexists _, _; split; [now apply attempt_server_error with (e := e)|].
      now split.
    + eexists _, _; split; [apply attempt_other; eassumption|]. now split.
  - eexists _, [_]; split; [apply attempt_success; eassumption|].
    now split.
Qed.

(** A loop that has at least one index to run makes between one call and
    one call per index, and leaves only calls, log lines and sleeps. *)
Lemma attempts_events (i : nat) (rest : list nat) : forall tr,
  exists v d,
    attempts W prompt (i :: rest) tr = (inr v, d ++ tr)
    /\ forallb is_wrap_event d = true
    /\ 1 <= count is_completion d <= S (length rest).
Proof.
  revert i. induction rest as [|j rest IH]; intros i tr;
    destruct (attempt_events i tr) as (r & d1 & E1 & F1 & C1);
    cbn [attempts] in *; unfold bind at 1; rewrite E1.
  - exists (match r with
            | Some v => v
            | None => "Rate limit exceeded or LLM error after retries."
            end%string), d1.
    split; [now destruct r|]. split; [exact F1|]. simpl; lia.
  - destruct r as [v|].
    + exists v, d1. split; [reflexivity|]. split; [exact F1|]. simpl; lia.
    + destruct (IH j (d1 ++ tr)) as (v & d2 & E2 & F2 & C2).
      exists v, (d2 ++ d1). rewrite E2, app_assoc.
      split; [reflexivity|]. rewrite forallb_app, F1, F2, count_app.
      split; [reflexivity|]. simpl in *; lia.
Qed.

End RetryEvents.

(** ** [main]: the primary pipeline and the fallback executor *)


Section Main.

Variable W : World.
Variable cfg : Config.

(** Whatever the framework does, only log lines and posts of the send
    tool reach the trace. *)
Lemma run_framework_events (f : Framework) : forall tr,
  exists r d,
    run_framework W cfg f tr = (r, d ++ tr)
    /\ forallb (is_tool_event cfg) d = true.
Proof.
  induction f as [result|e|message k IH]; intros tr.
  - now exists (inr result), [].
  - now exists (inl e), [].
  - cbn [run_framework]. unfold bind. rewrite telegram_sender_tool_run.
    pose proof (tool_request_is_tool_delivery cfg message) as T.
    destruct (post_failure W _ _) as [msg|];
      match goal with
      | |- context [run_framework W cfg (k ?o) (?d1 ++ tr)] =>
          destruct (IH o (d1 ++ tr)) as (r & d & E & F);
          exists r, (d ++ d1); rewrite E, app_assoc;
          split; [reflexivity|]; rewrite forallb_app, F;
          cbn [forallb is_tool_event]; now rewrite T
      end.
Qed.

Lemma crew_kickoff_events (tr : Trace) :
  exists r d,
    crew_kickoff W cfg tr = (r, d ++ EKickoff :: tr)
    /\ forallb (is_tool_event cfg) d = true.
Proof.
  unfold crew_kickoff, bind, emit.
  apply run_framework_events.
Qed.

(** The fallback executor never raises: each of its three steps turns its
    own failure into a string, and the next step runs on that string. *)
Lemma fallback_run (tr : Trace) :
  exists news summary date stamp d,
    let message := fallback_message date summary stamp in
    let pre := [ENow; ENow] ++ d
               ++ [EPost (news_request cfg);
                   ELog INFO "🔄 Attempting fallback execution..."] ++ tr in
    let telegram_result :=
      match post_failure W (count is_post pre) (direct_request cfg message)
      with
      | Some msg => ("Error sending Telegram message: " ++ msg)%string
      | None => "Message sent successfully"%string
      end in
    fallback W cfg tr =
    (inr tt,
     [EPrint ("🔄 Fallback completed: " ++ telegram_result)%string;
      ELog INFO ("Fallback execution result: " ++ telegram_result)%string;
      EPost (direct_request cfg message)] ++ pre)
    /\ fst (fetch_market_news W cfg
              (ELog INFO "🔄 Attempting fallback execution..." :: tr))
       = inr news
    /\ forallb is_wrap_event d = true
    /\ 1 <= count is_completion d <= 3.
Proof.
  destruct (fetch_market_news_run W cfg
              (ELog INFO "🔄 Attempting fallback execution..." :: tr))
    as (news & N).
  destruct (attempts_events W (wrap_prompt news) 0 [1; 2]
              (EPost (news_request cfg)
               :: ELog INFO "🔄 Attempting fallback execution..." :: tr))
    as (summary & d & G & F & C).
  exists news, summary. do 2 eexists. exists d. cbv zeta.
  split; [|split; [now rewrite N|split; [exact F|exact C]]].
  unfold fallback, bind, log, print, emit at 1.
  rewrite N. unfold generate_market_wrap, retries. cbn [seq]. rewrite G.
  unfold now_strftime. rewrite send_to_telegram_direct_run.
  unfold emit. reflexivity.
Qed.

Lemma validate_environment_ok (tr : Trace) :
  missing cfg = [] -> validate_environment cfg tr = (inr true, tr).
Proof. intros H. unfold validate_environment. now rewrite H. Qed.

Lemma validate_environment_missing (tr : Trace) :
  missing cfg <> [] ->
  validate_environment cfg tr =
  (inr false,
   ELog ERROR ("Missing required environment variables: "
               ++ PyStr.join ", " (missing cfg))%string :: tr).
Proof.
  intros H. unfold validate_environment.
  now destruct (missing cfg).
Qed.

(** [main] once validation has passed, by the outcome of the kickoff. *)
Lemma main_run (tr : Trace) :
  missing cfg = [] ->
  main W cfg tr =
  match crew_kickoff W cfg (kickoff_point tr) with
  | (inr result, t) =>
      (inr (Some result),
       [EPrint banner; EPrint result; EPrint banner;
        EPrint (PyStr.newline
                ++ "🎉 CREWAI FINANCIAL MARKET WRAP - COMPLETE")%string;
        ELog INFO ("✅ Workflow completed in "
                   ++ fmt_2f (clock W (S (count is_clock tr))
                              - clock W (count is_clock tr))
                   ++ " seconds")%string;
        EClock] ++ t)
  | (inl e, t) =>
      (inr None,
       snd (fallback W cfg
              ([EPrint (PyStr.newline ++ "🔧 Workflow Error: "
                        ++ str_exn e)%string;
                ELog ERROR ("❌ Workflow failed: " ++ str_exn e)%string]
               ++ t)))
  end.
Proof.
  intros V.
  destruct (crew_kickoff_events (kickoff_point tr)) as (r & d & E & F).
  rewrite E.
  unfold main, primary, try_except, bind, log, print, emit, time_time, ret.
  rewrite (validate_environment_ok _ V). cbn [negb].
  unfold kickoff_point in *. cbn [app] in *. rewrite E.
  destruct r as [e|result].
  - destruct (fallback_run
                ([EPrint (PyStr.newline ++ "🔧 Workflow Error: "
                          ++ str_exn e)%string;
                  ELog ERROR ("❌ Workflow failed: " ++ str_exn e)%string]
                 ++ d ++ EKickoff :: kickoff_point tr))
      as (news & summary & date & stamp & dw & R & _).
    cbv zeta in R. unfold kickoff_point in R. cbn [app] in R.
    now rewrite R.
  - rewrite !count_app.
    rewrite (count_none is_clock (is_tool_event cfg) d F);
      [|intros e He; apply (tool_event_classes cfg e He)].
    reflexivity.
Qed.

End Main.

Lemma count_cons (p : Event -> bool) (e : Event) (tr : Trace) :
  count p (e :: tr) = (if p e then 1 else 0) + count p tr.
Proof. unfold count. cbn [filter]. now destruct (p e). Qed.

Lemma direct_request_not_tool (cfg : Config) (message : string) :
  is_tool_delivery cfg (EPost (direct_request cfg message)) = false.
Proof.
  unfold is_tool_delivery. cbn [req_url req_json direct_request].
  apply andb_false_r.
Qed.

Lemma news_request_not_delivery (cfg : Config) :
  is_tool_delivery cfg (EPost (news_request cfg)) = false
  /\ is_direct_delivery cfg (EPost (news_request cfg)) = false.
Proof. split; reflexivity. Qed.

Lemma count_nil (p : Event -> bool) : count p [] = 0.
Proof. reflexivity. Qed.

(** Split a count over a trace into the counts of its pieces. *)
Ltac split_count :=
  repeat (rewrite count_app || rewrite count_cons || rewrite count_nil).


(** C1, as stated, fails: in one invocation the send tool posts a message
    during the primary pipeline, the pipeline then raises, and the fallback
    posts a second message; both deliveries are attempted (and here both
    succeed). *)
Lemma primary_and_fallback_both_deliver :
  let tr := snd (run BothDeliver.world BothDeliver.environ) in
  fst (run BothDeliver.world BothDeliver.environ) = inr None
  /\ count (is_tool_delivery BothDeliver.cfg) tr = 1
  /\ count (is_direct_delivery BothDeliver.cfg) tr = 1
  /\ ~ (count (is_tool_delivery BothDeliver.cfg) tr = 0
        \/ count (is_direct_delivery BothDeliver.cfg) tr = 0).
Proof.
  assert (count (is_tool_delivery BothDeliver.cfg)
            (snd (run BothDeliver.world BothDeliver.environ)) = 1) as T
    by reflexivity.
  assert (count (is_direct_delivery BothDeliver.cfg)
            (snd (run BothDeliver.world BothDeliver.environ)) = 1) as D
    by reflexivity.
  cbv zeta. rewrite T, D. split; [reflexivity|].
  split; [reflexivity|]. split; [reflexivity|].
  intros [H|H]; discriminate.
Qed.

(** C1, amended.  Once validation has passed, [main] returns normally, and
    its deliveries are these: the primary path posts whatever the framework
    made the send tool post during [kickoff] (the trace of [main] holds no
    other post of that shape); the fallback's direct send is attempted
    exactly once when [kickoff] raises and not at all when it returns.  So
    a raise of the primary pipeline is always followed by one fallback
    delivery attempt, also when the send tool had already posted. *)
Theorem delivery_accounting (W : World) (cfg : Config) (tr : Trace) :
  missing cfg = [] ->
  let kickoff := crew_kickoff W cfg (kickoff_point tr) in
  fst (main W cfg tr)
  = inr match fst kickoff with
        | inl _ => None
        | inr result => Some result
        end
  /\ count (is_tool_delivery cfg) (snd (main W cfg tr))
     = count (is_tool_delivery cfg) (snd kickoff)
  /\ count (is_direct_delivery cfg) (snd (main W cfg tr))
     = count (is_direct_delivery cfg) tr
       + match fst kickoff with
         | inl _ => 1
         | inr _ => 0
         end.
Proof.
  intros V. cbv zeta. rewrite (main_run W cfg tr V).
  destruct (crew_kickoff_events W cfg (kickoff_point tr)) as (r & d & E & F).
  rewrite E. cbn [fst snd].
  assert (count (is_direct_delivery cfg) d = 0) as D0
    by (apply (count_none _ _ d F); intros e He;
        apply (tool_event_classes cfg e He)).
  destruct r as [e|result].
  - destruct (fallback_run W cfg
                ([EPrint (PyStr.newline ++ "🔧 Workflow Error: "
                          ++ str_exn e)%string;
                  ELog ERROR ("❌ Workflow failed: " ++ str_exn e)%string]
                 ++ d ++ EKickoff :: kickoff_point tr))
      as (news & summary & date & stamp & dw & R & _ & Fw & _).
    cbv zeta in R. rewrite R. cbn [fst snd].
    assert (count (is_direct_delivery cfg) dw = 0
            /\ count (is_tool_delivery cfg) dw = 0) as [Dw Tw]
      by (split; apply (count_none _ _ dw Fw); intros x Hx;
          apply (wrap_event_classes cfg x Hx)).
    split; [reflexivity|]. unfold kickoff_point.
    split_count. rewrite D0, Dw, Tw.
    rewrite direct_request_is_direct_delivery, direct_request_not_tool.
    destruct (news_request_not_delivery cfg) as [-> ->].
    cbn [is_tool_delivery is_direct_delivery]. split; lia.
  - cbn [fst snd]. split; [reflexivity|]. unfold kickoff_point.
    split_count. rewrite D0. cbn [is_tool_delivery is_direct_delivery].
    split; lia.
Qed.

Lemma delivery_accounting_witness :
  let kickoff :=
    crew_kickoff BothDeliver.world BothDeliver.cfg (kickoff_point []) in
  fst (main BothDeliver.world BothDeliver.cfg [])
  = inr match fst kickoff with
        | inl _ => None
        | inr result => Some result
        end
  /\ count (is_tool_delivery BothDeliver.cfg)
           (snd (main BothDeliver.world BothDeliver.cfg []))
     = count (is_tool_delivery BothDeliver.cfg) (snd kickoff)
  /\ count (is_direct_delivery BothDeliver.cfg)
           (snd (main BothDeliver.world BothDeliver.cfg []))
     = count (is_direct_delivery BothDeliver.cfg) []
       + match fst kickoff with
         | inl _ => 1
         | inr _ => 0
         end.
Proof.
  apply (delivery_accounting BothDeliver.world BothDeliver.cfg []).
  reflexivity.
Defined.


(** C6, as stated, fails: with the primary pipeline raised and every
    request of the fallback failing (the news fetch and the delivery),
    the fallback executor does not raise.  The summary is still generated
    from the error text of step 1, the delivery is still tried, and the
    last thing printed is "Fallback completed" with the delivery error;
    total failure is never reported. *)
Lemma failed_fallback_is_not_total_failure :
  let tr := snd (run AllDown.world BothDeliver.environ) in
  fst (crew_kickoff AllDown.world BothDeliver.cfg
         (kickoff_point
            [ELog ERROR "LLM initialization error: provider not installed";
             ESetEnv "GROQ_API_KEY" "value of GROQ_API_KEY"]))
  = inl (Exn "RuntimeError" "stage failed")
  /\ count is_search tr = 1
  /\ count is_completion tr = 1
  /\ count (is_direct_delivery BothDeliver.cfg) tr = 1
  /\ hd_error tr
     = Some (EPrint "🔄 Fallback completed: Error sending Telegram message: no route to host")
  /\ existsb is_total_failure tr = false.
Proof. cbv zeta. repeat split; reflexivity. Qed.

(** C6, amended.  After the primary pipeline has raised, the fallback
    executor never raises, whatever its three steps meet: it makes one
    search request, one to three completion calls and one delivery
    request, then logs and prints "Fallback completed" with the string the
    delivery returned, which is the delivery's error text when the delivery
    failed.  Nothing follows the delivery request but that log line and
    that print, and total failure is not reported. *)
Theorem fallback_failure_is_reported_as_completed
    (W : World) (cfg : Config) (tr : Trace) (e : exn) :
  missing cfg = [] ->
  fst (crew_kickoff W cfg (kickoff_point tr)) = inl e ->
  exists message pre,
    let telegram_result :=
      match post_failure W (count is_post pre) (direct_request cfg message)
      with
      | Some msg => ("Error sending Telegram message: " ++ msg)%string
      | None => "Message sent successfully"%string
      end in
    main W cfg tr =
    (inr None,
     [EPrint ("🔄 Fallback completed: " ++ telegram_result)%string;
      ELog INFO ("Fallback execution result: " ++ telegram_result)%string;
      EPost (direct_request cfg message)] ++ pre)
    /\ count is_search pre = count is_search tr + 1
    /\ count is_completion tr + 1 <= count is_completion pre
       <= count is_completion tr + 3
    /\ count (is_direct_delivery cfg) pre = count (is_direct_delivery cfg) tr
    /\ count is_total_failure (snd (main W cfg tr))
       = count is_total_failure tr.
Proof.
  intros V K. rewrite (main_run W cfg tr V).
  destruct (crew_kickoff_events W cfg (kickoff_point tr)) as (r & d & E & F).
  rewrite E in K |- *. cbn [fst] in K. subst r.
  destruct (fallback_run W cfg
              ([EPrint (PyStr.newline ++ "🔧 Workflow Error: "
                        ++ str_exn e)%string;
                ELog ERROR ("❌ Workflow failed: " ++ str_exn e)%string]
               ++ d ++ EKickoff :: kickoff_point tr))
    as (news & summary & date & stamp & dw & R & _ & Fw & Cw).
  cbv zeta in R. rewrite R. cbn [snd].
  exists (fallback_message date summary stamp).
  eexists. cbv zeta. split; [reflexivity|].
  assert (forall p, (forall x, is_tool_event cfg x = true -> p x = false) ->
                    count p d = 0) as Hd
    by (intros p Hp; apply (count_none _ _ d F Hp)).
  assert (forall p, (forall x, is_wrap_event x = true -> p x = false) ->
                    count p dw = 0) as Hw
    by (intros p Hp; apply (count_none _ _ dw Fw Hp)).
  unfold kickoff_point. split_count.
  rewrite (Hd is_search), (Hd is_completion), (Hd (is_direct_delivery cfg)),
    (Hd is_total_failure)
    by (intros x Hx; apply (tool_event_classes cfg x Hx)).
  rewrite (Hw is_search), (Hw (is_direct_delivery cfg)),
    (Hw is_total_failure)
    by (intros x Hx; apply (wrap_event_classes cfg x Hx)).
  destruct (news_request_not_delivery cfg) as [_ ->].
  cbn [is_search is_completion is_direct_delivery is_total_failure
       req_url news_request direct_request].
  change (String.eqb "https://api.tavily.com/search"
                     "https://api.tavily.com/search") with true.
  repeat match goal with
         | |- context [String.prefix "❌ Complete system failure: " ?s] =>
             change (String.prefix "❌ Complete system failure: " s)
               with false
         end.
  repeat split; lia.
Qed.

Lemma fallback_failure_is_reported_as_completed_witness :
  exists message pre,
    let telegram_result :=
      match post_failure AllDown.world (count is_post pre)
                         (direct_request BothDeliver.cfg message)
      with
      | Some msg => ("Error sending Telegram message: " ++ msg)%string
      | None => "Message sent successfully"%string
      end in
    main AllDown.world BothDeliver.cfg [] =
    (inr None,
     [EPrint ("🔄 Fallback completed: " ++ telegram_result)%string;
      ELog INFO ("Fallback execution result: " ++ telegram_result)%string;
      EPost (direct_request BothDeliver.cfg message)] ++ pre)
    /\ count is_search pre = count is_search [] + 1
    /\ count is_completion [] + 1 <= count is_completion pre
       <= count is_completion [] + 3
    /\ count (is_direct_delivery BothDeliver.cfg) pre
       = count (is_direct_delivery BothDeliver.cfg) []
    /\ count is_total_failure (snd (main AllDown.world BothDeliver.cfg []))
       = count is_total_failure [].
Proof.
  apply (fallback_failure_is_reported_as_completed
           AllDown.world BothDeliver.cfg []
           (e := Exn "RuntimeError" "stage failed"));
    reflexivity.
Defined.

(** ** Start-up: the environment check *)

(** X13. With the model key set (so that the import succeeds) and any
    required value missing or empty, [main] logs the missing names in the
    order of [required_vars], prints the failure line and returns; nothing
    else happens: no request, no completion call, no kickoff. *)
Lemma missing_values_are_listed
    (W : World) (environ : string -> option string) (key : string) :
  environ "GROQ_API_KEY"%string = Some key ->
  forall cfg, fst (load_config environ []) = inr cfg ->
  missing cfg <> [] ->
  run W environ =
  (inr None,
   [EPrint "❌ Environment validation failed. Please check your .env file.";
    ELog ERROR ("Missing required environment variables: "
                ++ PyStr.join ", " (missing cfg))%string;
    ELog INFO "🚀 Starting CrewAI Financial Market Wrap Workflow..."]
   ++ snd (init_llm W [ESetEnv "GROQ_API_KEY" key])).
Proof.
  intros G cfg L M. unfold run, script, bind.
  unfold load_config in *. cbn [GROQ_API_KEY] in *. rewrite G in *.
  unfold bind, emit, ret in *. cbn [fst] in L. injection L as <-.
  destruct (init_llm W _) as [[e|[]] t] eqn:I.
  - unfold init_llm, try_except, bind, emit, raise, ret in I.
    destruct (llm_init W); discriminate.
  - unfold main, bind, log, emit.
    rewrite validate_environment_missing by exact M. reflexivity.
Qed.

Example two_missing_values :
  run BothDeliver.world
      (fun k => if String.eqb k "GROQ_API_KEY" then Some "gsk"%string
                else if String.eqb k "TELEGRAM_BOT_TOKEN" then Some ""%string
                else if String.eqb k "TAVILY_API_KEY" then Some "tvly"%string
                else None) =
  (inr None,
   [EPrint "❌ Environment validation failed. Please check your .env file.";
    ELog ERROR "Missing required environment variables: TELEGRAM_BOT_TOKEN, TELEGRAM_CHAT_ID";
    ELog INFO "🚀 Starting CrewAI Financial Market Wrap Workflow...";
    ELog INFO "Successfully initialized Groq LLM with model: llama-3.1-8b-instant";
    ESetEnv "GROQ_API_KEY" "gsk"]).
Proof. reflexivity. Qed.

(** C8, at the input where the code departs from it.  When the model API
    key is absent, the assignment [os.environ["GROQ_API_KEY"] = None] at
    import raises [TypeError]: the process ends before [main] and
    [validate_environment] run, with no pipeline stage started and with
    nothing logged or printed by the program, so the list of missing names
    never appears. *)
Theorem unset_model_key_raises_at_import
    (W : World) (environ : string -> option string) :
  environ "GROQ_API_KEY"%string = None ->
  run W environ = (inl (Exn "TypeError" "str expected, not NoneType"), []).
Proof.
  intros G. unfold run, script, bind, load_config.
  cbn [GROQ_API_KEY]. now rewrite G.
Qed.

Lemma unset_model_key_raises_at_import_witness :
  run BothDeliver.world
      (fun k => if String.eqb k "GROQ_API_KEY" then None
                else Some "set"%string) =
  (inl (Exn "TypeError" "str expected, not NoneType"), []).
Proof.
  apply unset_model_key_raises_at_import. reflexivity.
Defined.

(** * Further properties of the code *)

(** ** The search tools *)

Lemma format_images_length (imgs : list ImageItem) : forall tr l t,
  format_images imgs tr = (inr l, t) -> length l = length imgs.
Proof.
  induction imgs as [|[u d|s] imgs IH]; intros tr l t H.
  - injection H as <- _. reflexivity.
  - cbn [format_images] in H. unfold bind in H.
    destruct (format_images imgs tr) as [[e|l'] t'] eqn:E; [discriminate|].
    injection H as <- _. simpl. f_equal. exact (IH _ _ _ E).
  - discriminate.
Qed.

Lemma format_images_bare (imgs : list ImageItem) (tr : Trace) :
  existsb is_bare imgs = true ->
  format_images imgs tr =
  (inl (Exn "AttributeError" "'str' object has no attribute 'get'"), tr).
Proof.
  induction imgs as [|[u d|s] imgs IH]; [discriminate| |reflexivity].
  cbn [existsb is_bare orb]. intros H.
  cbn [format_images]. unfold bind. now rewrite (IH H).
Qed.

(** X1. [tavily_search_tool] never raises, whatever the query and whatever
    the search service does, and makes exactly one request.  It returns
    either the serialisation of a dict with at most 3 articles and at most
    2 images, or the string "Error searching: " followed by the error
    text, which it has just logged. *)
Theorem tavily_search_tool_never_raises
    (W : World) (cfg : Config)
    (json_dumps : FormattedResults -> string)
    (str_dict : list (string * string) -> string)
    (query : ToolInput) (tr : Trace) :
  exists s d,
    tavily_search_tool W cfg json_dumps str_dict query tr = (inr s, d ++ tr)
    /\ count is_post d = 1
    /\ count is_search d = 1
    /\ ((exists fr, s = json_dumps fr
                    /\ length (news_articles fr) <= 3
                    /\ length (fr_images fr) <= 2)
        \/ (exists msg,
              s = ("Error searching: " ++ msg)%string
              /\ hd_error d
                 = Some (ELog ERROR ("Error in Tavily search: " ++ msg)))).
Proof.
  unfold tavily_search_tool, try_except, bind, log, emit, requests_post,
    raise_for_status, response_json, formatted_results.
  cbv zeta. unfold bind.
  set (q := tavily_query str_dict query).
  destruct (http_reply W _ _) as [e|response].
  { eexists _, [_; _; _]. split; [reflexivity|].
    split; [reflexivity|]. split; [reflexivity|]. right. now eexists. }
  destruct (status_error response) as [msg|].
  { eexists _, [_; _; _]. split; [reflexivity|].
    split; [reflexivity|]. split; [reflexivity|]. right. now eexists. }
  unfold ret at 1. cbv beta iota.
  destruct (resp_json response) as [e|data].
  { eexists _, [_; _; _]. split; [reflexivity|].
    split; [reflexivity|]. split; [reflexivity|]. right. now eexists. }
  unfold ret at 1. cbv beta iota.
  pose proof (format_images_pure
                (firstn 2 match images data with Some l => l | None => [] end)
                (EPost (search_request cfg q)
                 :: ELog INFO ("Searching for: " ++ q) :: tr)) as P.
  destruct (format_images _ _) as [[e|imgs] t] eqn:F; simpl in P; subst t.
  - eexists _, [_; _; _]. split; [reflexivity|].
    split; [reflexivity|]. split; [reflexivity|]. right. now eexists.
  - eexists _, [_; _]. split; [reflexivity|].
    split; [reflexivity|]. split; [reflexivity|]. left.
    eexists. split; [reflexivity|]. cbn [news_articles fr_images].
    rewrite length_map, (format_images_length _ _ F), !length_firstn. lia.
Qed.

(** X2. A search response that is fine in every other respect but lists one
    of its first two images as a bare URL string makes
    [tavily_search_tool] drop the articles and return the
    [AttributeError] text as its result. *)
Theorem tavily_search_tool_bare_image
    (W : World) (cfg : Config)
    (json_dumps : FormattedResults -> string)
    (str_dict : list (string * string) -> string)
    (query : ToolInput) (tr : Trace)
    (response : Response) (data : SearchData) (imgs : list ImageItem) :
  http_reply W (count is_post tr)
             (search_request cfg (tavily_query str_dict query))
    = inr response ->
  status_error response = None ->
  resp_json response = inr data ->
  images data = Some imgs ->
  existsb is_bare (firstn 2 imgs) = true ->
  fst (tavily_search_tool W cfg json_dumps str_dict query tr)
  = inr "Error searching: 'str' object has no attribute 'get'"%string.
Proof.
  intros H S J I B.
  unfold tavily_search_tool, try_except, bind, log, emit, requests_post,
    raise_for_status, response_json, formatted_results.
  cbv zeta. unfold bind, count in *. cbn [filter is_post].
  rewrite H, S. unfold ret at 1. cbv beta iota. rewrite J.
  unfold ret at 1. cbv beta iota. rewrite I.
  now rewrite (format_images_bare _ _ B).
Qed.

Lemma tavily_search_tool_bare_image_witness :
  fst (tavily_search_tool
         {| http_reply := fun _ _ =>
              inr {| status_error := None;
                     resp_json :=
                       inr {| results := Some FiveResults.five;
                              images := Some [ImgStr "https://i.example/1.png"]
                           |} |};
            llm_reply := fun _ _ => inr ""%string;
            crew := Finish ""; llm_init := None; clock := fun _ => 0;
            now := fun _ f => f |}
         Samples.full_config (fun _ => "{}"%string) (fun _ => ""%string)
         (InStr "markets") [])
  = inr "Error searching: 'str' object has no attribute 'get'"%string.
Proof.
  eapply tavily_search_tool_bare_image; reflexivity.
Defined.

Lemma collect_images_run (imgs : list ImageItem) :
  forall (acc : list RelevantImage) (tr : Trace),
    collect_images imgs acc tr =
    if existsb is_bare imgs
    then (inl (Exn "AttributeError" "'str' object has no attribute 'get'"),
          tr)
    else (inr (acc ++ relevant_of imgs), tr).
Proof.
  induction imgs as [|[u d|s] imgs IH]; intros acc tr.
  - cbn. now rewrite app_nil_r.
  - cbn [collect_images existsb is_bare orb relevant_of].
    destruct (is_relevant (get_or_empty d)); rewrite IH;
      destruct (existsb is_bare imgs); try reflexivity.
    now rewrite <- app_assoc.
  - reflexivity.
Qed.






Example image_search_tool_sample :
  fst (image_search_tool (Charts.world Charts.three) Samples.full_config
         Charts.dumps (fun _ => ""%string) (InStr "today") [])
  = inr "S&P 500 daily CHART"%string.
Proof. reflexivity. Qed.

(** X5. If one of the first two images of the response is a bare URL
    string, [image_search_tool] returns the placeholder entry alone: an
    image already collected before the string was met is discarded. *)
Theorem image_search_tool_bare_image
    (W : World) (cfg : Config)
    (json_dumps_images : option nat -> list RelevantImage -> string)
    (str_dict : list (string * string) -> string)
    (search_context : ToolInput) (tr : Trace)
    (response : Response) (data : SearchData) (imgs : list ImageItem) :
  http_reply W (count is_post tr)
    (image_request cfg (image_query (image_context str_dict search_context)))
    = inr response ->
  status_error response = None ->
  resp_json response = inr data ->
  images data = Some imgs ->
  existsb is_bare (firstn 2 imgs) = true ->
  image_search_tool W cfg json_dumps_images str_dict search_context tr
  = (inr (json_dumps_images None [chart_placeholder]),
     [ELog ERROR
        "Error finding images: 'str' object has no attribute 'get'";
      EPost (image_request cfg
               (image_query (image_context str_dict search_context)))]
     ++ tr).
Proof.
  intros H S J I B.
  unfold image_search_tool, try_except, bind, requests_post,
    raise_for_status, response_json.
  cbv zeta. unfold bind. rewrite H, S. unfold ret at 1. cbv beta iota.
  rewrite J. unfold ret at 1. cbv beta iota. rewrite I.
  now rewrite collect_images_run, B.
Qed.

Lemma image_search_tool_bare_image_witness :
  relevant_of (firstn 1 Charts.mixed) <> []
  /\ image_search_tool (Charts.world Charts.mixed) Samples.full_config
       Charts.dumps (fun _ => ""%string) (InStr "today") []
     = (inr (Charts.dumps None [chart_placeholder]),
        [ELog ERROR
           "Error finding images: 'str' object has no attribute 'get'";
         EPost (image_request Samples.full_config
                  (image_query (image_context (fun _ => ""%string)
                                              (InStr "today"))))]
        ++ []).
Proof.
  split; [discriminate|].
  eapply image_search_tool_bare_image; reflexivity.
Defined.

(** ** The fallback's news fetch and direct send *)

Lemma prefix_nil (s : string) : String.prefix "" s = true.
Proof. now destruct s. Qed.

Lemma news_lines_run (rs : list Article) (tr : Trace) :
  news_lines rs tr =
  match first_missing_key rs with
  | Some k => (inl (Exn "KeyError" ("'" ++ k ++ "'")), tr)
  | None => (inr (map line_of rs), tr)
  end.
Proof.
  induction rs as [|r rs IH]; [reflexivity|].
  cbn [news_lines first_missing_key map]. unfold bind at 1.
  unfold news_line, bind, getitem, line_of.
  destruct (title r) as [t|]; [|reflexivity].
  destruct (url r) as [u|]; [|reflexivity].
  unfold ret at 1 2 3. rewrite IH.
  now destruct (first_missing_key rs).
Qed.

(** X6. [fetch_market_news] never raises and makes exactly one request,
    which carries no timeout.  What it returns has one of three shapes: the
    "no news" line, "Error fetching news: " followed by an error text, or
    a digest whose first line starts with "- ". *)
Theorem fetch_market_news_never_raises
    (W : World) (cfg : Config) (tr : Trace) :
  exists news,
    fetch_market_news W cfg tr = (inr news, EPost (news_request cfg) :: tr)
    /\ is_timed_post (EPost (news_request cfg)) = false
    /\ (news = "No fresh market news found."%string
        \/ String.prefix "Error fetching news: " news = true
        \/ String.prefix "- " news = true).
Proof.
  unfold fetch_market_news, try_except, bind, requests_post,
    raise_for_status, response_json.
  destruct (http_reply W _ _) as [e|response].
  { eexists. split; [reflexivity|]. split; [reflexivity|].
    right; left. apply prefix_app. }
  destruct (status_error response) as [msg|].
  { eexists. split; [reflexivity|]. split; [reflexivity|].
    right; left. apply prefix_app. }
  unfold ret at 1. cbv beta iota.
  destruct (resp_json response) as [e|data].
  { eexists. split; [reflexivity|]. split; [reflexivity|].
    right; left. apply prefix_app. }
  unfold ret at 1. cbv beta iota.
  destruct (match results data with Some l => l | None => [] end)
    as [|r rs].
  { eexists. split; [reflexivity|]. split; [reflexivity|]. now left. }
  rewrite news_lines_run.
  destruct (first_missing_key (r :: rs)) as [k|].
  { eexists. split; [reflexivity|]. split; [reflexivity|].
    right; left. apply prefix_app. }
  eexists. split; [reflexivity|]. split; [reflexivity|].
  right; right. destruct rs as [|r' rs']; cbn; apply prefix_nil.
Qed.

(** X7. On a response that decodes, the digest of [fetch_market_news] is
    decided by the results: none (or no "results" key) gives the "no news"
    line; otherwise the first article that lacks "title" or "url" turns the
    whole result into the [KeyError] text, the articles before it being
    lost; otherwise there is one line per article, in order. *)
Theorem fetch_market_news_digest
    (W : World) (cfg : Config) (tr : Trace)
    (response : Response) (data : SearchData) :
  http_reply W (count is_post tr) (news_request cfg) = inr response ->
  status_error response = None ->
  resp_json response = inr data ->
  fst (fetch_market_news W cfg tr) =
  inr match results data with
      | None | Some [] => "No fresh market news found."%string
      | Some rs =>
          match first_missing_key rs with
          | Some k => ("Error fetching news: '" ++ k ++ "'")%string
          | None => PyStr.join PyStr.newline (map line_of rs)
          end
      end.
Proof.
  intros H S J.
  unfold fetch_market_news, try_except, bind, requests_post,
    raise_for_status, response_json.
  rewrite H, S. unfold ret at 1. cbv beta iota. rewrite J.
  unfold ret at 1. cbv beta iota.
  destruct (results data) as [[|r rs]|]; try reflexivity.
  rewrite news_lines_run.
  now destruct (first_missing_key (r :: rs)).
Qed.

Lemma fetch_market_news_digest_witness :
  fst (fetch_market_news Incomplete.world Samples.full_config [])
  = inr "Error fetching news: 'url'"%string.
Proof.
  apply (fetch_market_news_digest Incomplete.world Samples.full_config []
           (response := Incomplete.response) (data := Incomplete.data));
    reflexivity.
Defined.

(** X8. [send_to_telegram_direct] never raises and leaves exactly one
    event, its request, which carries neither a timeout nor a parse mode;
    nothing is logged.  It returns "Message sent successfully" when the
    post went through and "Error sending Telegram message: " followed by
    the error text when it did not. *)
Theorem send_to_telegram_direct_never_raises
    (W : World) (cfg : Config) (message : string) (tr : Trace) :
  exists s,
    send_to_telegram_direct W cfg message tr
    = (inr s, EPost (direct_request cfg message) :: tr)
    /\ is_timed_post (EPost (direct_request cfg message)) = false
    /\ has_key "parse_mode" (req_json (direct_request cfg message)) = false
    /\ s = match post_failure W (count is_post tr)
                              (direct_request cfg message)
           with
           | Some msg => ("Error sending Telegram message: " ++ msg)%string
           | None => "Message sent successfully"%string
           end
    /\ String.prefix "Error sending Telegram message:" s
       = match post_failure W (count is_post tr)
                            (direct_request cfg message)
         with Some _ => true | None => false end.
Proof.
  rewrite send_to_telegram_direct_run. eexists.
  split; [reflexivity|]. split; [reflexivity|]. split; [reflexivity|].
  split; [reflexivity|].
  destruct (post_failure W _ _) as [msg|]; [|reflexivity].
  apply (prefix_app "Error sending Telegram message:" (String " " msg)).
Qed.

(** ** More on the retry loop *)

Lemma prefix_refl (s : string) : String.prefix s s = true.
Proof.
  induction s as [|c s IH]; [reflexivity|]. simpl.
  destruct (Ascii.ascii_dec c c); [exact IH|congruence].
Qed.

Lemma contains_refl (s : string) : PyStr.contains s s = true.
Proof.
  destruct s as [|c s]; [reflexivity|]. cbn [PyStr.contains].
  now rewrite (prefix_refl (String c s)).
Qed.

Lemma contains_app_l (needle p hay : string) :
  PyStr.contains needle hay = true ->
  PyStr.contains needle (p ++ hay)%string = true.
Proof.
  intros H. induction p as [|c p IH]; [exact H|].
  cbn [String.append]. now apply contains_String.
Qed.

Section RetryShape.

Variable W : World.
Variable prompt : string.

(** A transient failure on pass [i]: the backoff of its class is slept,
    and the loop goes on. *)
Lemma attempt_transient (i : nat) (tr : Trace) (e : exn) :
  llm_reply W (count is_completion tr) prompt = inl e ->
  is_rate_limit e || is_server_error e = true ->
  exists msg,
    attempt W prompt i tr =
    (inr None,
     [ESleep (backoff i e); ELog INFO msg;
      ECompletion "groq/llama-3.1-8b-instant" prompt 400 30] ++ tr).
Proof.
  intros H T. unfold backoff. destruct (is_rate_limit e) eqn:R.
  - eexists. now apply attempt_rate_limit with (e := e).
  - simpl in T. eexists. now apply attempt_server_error with (e := e).
Qed.

(** One pass either returns without sleeping or sleeps once and goes on;
    either way it makes one call, for [prompt]. *)
Lemma attempt_shape (i : nat) (tr : Trace) :
  exists r d,
    attempt W prompt i tr = (inr r, d ++ tr)
    /\ count is_completion d = 1
    /\ count (is_other_prompt prompt) d = 0
    /\ length (sleeps d) = match r with Some _ => 0 | None => 1 end.
Proof.
  assert (forall m a b,
            is_other_prompt prompt (ECompletion m prompt a b) = false)
    as O by (intros; cbn; now rewrite String.eqb_refl).
  destruct (llm_reply W (count is_completion tr) prompt) as [e|text] eqn:H.
  - destruct (is_rate_limit e || is_server_error e) eqn:T.
    + destruct (attempt_transient i tr H T) as (msg & E).
      eexists _, _. split; [exact E|]. split; [reflexivity|].
      split; [|reflexivity]. split_count. now rewrite O.
    + apply orb_false_elim in T as [R S].
      eexists _, _. split; [apply attempt_other; eassumption|].
      split; [reflexivity|]. split; [|reflexivity].
      split_count. now rewrite O.
  - eexists _, [_]. split; [apply attempt_success; eassumption|].
    split; [reflexivity|]. split; [|reflexivity]. split_count. now rewrite O.
Qed.

(** The loop over any indices: every call is for [prompt]; and either the
    loop returned from inside, with one call more than sleeps, or it ran
    out of indices, having slept after every call. *)
Lemma attempts_shape (indices : list nat) : forall tr,
  exists v d,
    attempts W prompt indices tr = (inr v, d ++ tr)
    /\ count (is_other_prompt prompt) d = 0
    /\ (count is_completion d = length (sleeps d) + 1
        \/ (count is_completion d = length indices
            /\ length (sleeps d) = length indices
            /\ v = "Rate limit exceeded or LLM error after retries."%string)).
Proof.
  induction indices as [|i rest IH]; intros tr.
  - exists "Rate limit exceeded or LLM error after retries."%string, [].
    split; [reflexivity|]. split; [reflexivity|]. right. now repeat split.
  - destruct (attempt_shape i tr) as (r & d1 & E1 & C1 & O1 & S1).
    cbn [attempts]. unfold bind at 1. rewrite E1. destruct r as [v|].
    + exists v, d1. split; [reflexivity|]. split; [exact O1|].
      left. lia.
    + destruct (IH (d1 ++ tr)) as (v & d2 & E2 & O2 & K).
      exists v, (d2 ++ d1). rewrite E2, app_assoc.
      split; [reflexivity|].
      rewrite !count_app, sleeps_app, length_app, O1, O2, C1, S1.
      split; [reflexivity|].
      destruct K as [K|(K1 & K2 & K3)]; [left; lia|right].
      cbn [length]. repeat split; [lia|lia|exact K3].
Qed.

End RetryShape.

(** X9. In [generate_market_wrap] every completion call but possibly the
    last is followed by a sleep: either the function returned from inside
    the loop, having made one call more than it slept, or it made 3 calls,
    slept 3 times (also after the last failure) and returned the
    sentinel. *)
Theorem generate_market_wrap_calls_and_sleeps
    (W : World) (news : string) (tr : Trace) :
  exists v d,
    generate_market_wrap W news tr = (inr v, d ++ tr)
    /\ (count is_completion d = length (sleeps d) + 1
        \/ (count is_completion d = 3
            /\ length (sleeps d) = 3
            /\ v = "Rate limit exceeded or LLM error after retries."%string)).
Proof.
  destruct (attempts_shape W (wrap_prompt news) (seq 0 retries) tr)
    as (v & d & E & _ & K).
  exists v, d. split; [exact E|exact K].
Qed.

(** X10. Transient errors on all three attempts, of either class in any
    mix: the waits are, in order, the backoff of each error's class on its
    attempt (15, 30, 45 seconds for "limit" errors, 10, 20, 30 for
    "internal server error" ones); the last thing the function does before
    returning the sentinel is the third sleep. *)
Theorem transient_errors_back_off_by_class
    (W : World) (news : string) (tr : Trace) (e0 e1 e2 : exn) :
  llm_reply W (count is_completion tr) (wrap_prompt news) = inl e0 ->
  llm_reply W (count is_completion tr + 1) (wrap_prompt news) = inl e1 ->
  llm_reply W (count is_completion tr + 2) (wrap_prompt news) = inl e2 ->
  is_rate_limit e0 || is_server_error e0 = true ->
  is_rate_limit e1 || is_server_error e1 = true ->
  is_rate_limit e2 || is_server_error e2 = true ->
  exists d,
    generate_market_wrap W news tr =
    (inr "Rate limit exceeded or LLM error after retries."%string, d ++ tr)
    /\ rev (sleeps d) = [backoff 0 e0; backoff 1 e1; backoff 2 e2]
    /\ hd_error d = Some (ESleep (backoff 2 e2)).
Proof.
  intros H0 H1 H2 T0 T1 T2.
  unfold generate_market_wrap, retries. cbn [seq attempts].
  destruct (attempt_transient W _ 0 tr H0 T0) as (m0 & E0).
  unfold bind at 1. rewrite E0.
  destruct (attempt_transient W (wrap_prompt news) 1
              ([ESleep (backoff 0 e0); ELog INFO m0;
                ECompletion "groq/llama-3.1-8b-instant"
                            (wrap_prompt news) 400 30] ++ tr)
              (e := e1)) as (m1 & E1);
    [split_count; cbn [is_completion]; rewrite <- H1; f_equal; lia
    |exact T1|].
  unfold bind at 1. rewrite E1.
  destruct (attempt_transient W (wrap_prompt news) 2
              ([ESleep (backoff 1 e1); ELog INFO m1;
                ECompletion "groq/llama-3.1-8b-instant"
                            (wrap_prompt news) 400 30]
               ++ [ESleep (backoff 0 e0); ELog INFO m0;
                   ECompletion "groq/llama-3.1-8b-instant"
                               (wrap_prompt news) 400 30] ++ tr)
              (e := e2)) as (m2 & E2);
    [split_count; cbn [is_completion]; rewrite <- H2; f_equal; lia
    |exact T2|].
  unfold bind at 1. rewrite E2.
  cbn [app]. eexists [_; _; _; _; _; _; _; _; _].
  split; [reflexivity|]. now cbn.
Qed.

Lemma transient_errors_back_off_by_class_witness :
  exists d,
    generate_market_wrap
      (Samples.world
         (fun n => match n with
                   | 0 => inl Samples.server_error
                   | 1 => inl Samples.rate_limited
                   | _ => inl Samples.server_error
                   end) (Finish "")) "n" [] =
    (inr "Rate limit exceeded or LLM error after retries."%string, d ++ [])
    /\ rev (sleeps d)
       = [backoff 0 Samples.server_error; backoff 1 Samples.rate_limited;
          backoff 2 Samples.server_error]
    /\ hd_error d = Some (ESleep (backoff 2 Samples.server_error)).
Proof.
  apply (transient_errors_back_off_by_class
           (Samples.world
              (fun n => match n with
                        | 0 => inl Samples.server_error
                        | 1 => inl Samples.rate_limited
                        | _ => inl Samples.server_error
                        end) (Finish "")) "n" []);
    reflexivity.
Defined.

Example backoff_samples :
  backoff 0 Samples.server_error = 10
  /\ backoff 1 Samples.rate_limited = 30
  /\ backoff 2 Samples.server_error = 30
  /\ backoff 2 Samples.both_markers = 45.
Proof. repeat split; reflexivity. Qed.

(** X11. Every completion call of [generate_market_wrap] is made for one
    and the same prompt, in which the news text stands verbatim: a retry
    resends the request unchanged. *)
Theorem generate_market_wrap_one_prompt
    (W : World) (news : string) (tr : Trace) :
  exists v d,
    generate_market_wrap W news tr = (inr v, d ++ tr)
    /\ count (is_other_prompt (wrap_prompt news)) d = 0
    /\ PyStr.contains news (wrap_prompt news) = true.
Proof.
  destruct (attempts_shape W (wrap_prompt news) (seq 0 retries) tr)
    as (v & d & E & O & _).
  exists v, d. split; [exact E|]. split; [exact O|].
  unfold wrap_prompt. do 2 apply contains_app_l. apply contains_refl.
Qed.

(** ** More on [main] and the script *)

Lemma missing_nil_iff (cfg : Config) :
  all_set cfg = true <-> missing cfg = [].
Proof.
  unfold all_set, missing, required_vars, is_set.
  destruct cfg as [[g|] [t|] [b|] [c|]]; cbn;
    repeat match goal with
           | |- context [String.eqb ?x ""] => destruct (String.eqb x "")
           end; cbn; split; (discriminate || reflexivity).
Qed.

Lemma tool_event_quiet (cfg : Config) (e : Event) :
  is_tool_event cfg e = true -> is_kickoff e = false.
Proof. now destruct e. Qed.

Lemma wrap_event_quiet (e : Event) :
  is_wrap_event e = true -> is_kickoff e = false /\ is_timed_post e = false.
Proof. now destruct e. Qed.



(** X12. [main] calls [crew.kickoff()] exactly once when all four values
    are set and non-empty, and not at all otherwise; in particular the
    fallback executor never starts the primary pipeline again. *)
Theorem kickoff_once_iff_configured (W : World) (cfg : Config) (tr : Trace) :
  count is_kickoff (snd (main W cfg tr))
  = count is_kickoff tr + (if all_set cfg then 1 else 0).
Proof.
  destruct (all_set cfg) eqn:A.
  - apply missing_nil_iff in A. rewrite (main_run W cfg tr A).
    destruct (crew_kickoff_events W cfg (kickoff_point tr))
      as (r & d & E & F).
    rewrite E.
    assert (count is_kickoff d = 0) as D0
      by (apply (count_none _ _ d F); intros e He;
          apply (tool_event_quiet cfg e He)).
    destruct r as [e|result]; cbn [snd].
    + destruct (fallback_run W cfg
                  ([EPrint (PyStr.newline ++ "🔧 Workflow Error: "
                            ++ str_exn e)%string;
                    ELog ERROR ("❌ Workflow failed: " ++ str_exn e)%string]
                   ++ d ++ EKickoff :: kickoff_point tr))
        as (news & summary & date & stamp & dw & R & _ & Fw & _).
      cbv zeta in R. rewrite R. cbn [snd].
      assert (count is_kickoff dw = 0) as Dw
        by (apply (count_none _ _ dw Fw); intros x Hx;
            apply (wrap_event_quiet x Hx)).
      unfold kickoff_point. split_count. rewrite D0, Dw.
      cbn [is_kickoff]. lia.
    + unfold kickoff_point. split_count. rewrite D0. cbn [is_kickoff]. lia.
  - assert (missing cfg <> []) as M
      by (intros M; apply missing_nil_iff in M; congruence).
    unfold main, bind, log, emit.
    rewrite validate_environment_missing by exact M.
    cbn [negb snd]. unfold print, emit, ret. cbn [snd].
    split_count. cbn [is_kickoff]. lia.
Qed.

Lemma missing_values_are_listed_witness :
  run BothDeliver.world
      (fun k => if String.eqb k "GROQ_API_KEY" then Some "gsk"%string
                else None) =
  (inr None,
   [EPrint "❌ Environment validation failed. Please check your .env file.";
    ELog ERROR ("Missing required environment variables: "
                ++ PyStr.join ", "
                     ["TAVILY_API_KEY"; "TELEGRAM_BOT_TOKEN";
                      "TELEGRAM_CHAT_ID"])%string;
    ELog INFO "🚀 Starting CrewAI Financial Market Wrap Workflow..."]
   ++ snd (init_llm BothDeliver.world [ESetEnv "GROQ_API_KEY" "gsk"])).
Proof.
  apply (missing_values_are_listed BothDeliver.world
           (fun k => if String.eqb k "GROQ_API_KEY" then Some "gsk"%string
                     else None)
           (key := "gsk"%string) eq_refl
           (cfg := {| GROQ_API_KEY := Some "gsk"%string;
                      TAVILY_API_KEY := None;
                      TELEGRAM_BOT_TOKEN := None;
                      TELEGRAM_CHAT_ID := None |}));
    [reflexivity|discriminate].
Defined.


(** X15. When [crew.kickoff()] returns, [main] returns the crew's result
    and does nothing more than read the clock, log the elapsed time and
    print the result between two rules of 80 "=": no search request, no
    completion call and no delivery of its own follow. *)
Theorem main_on_success
    (W : World) (cfg : Config) (tr : Trace) (result : string) :
  missing cfg = [] ->
  fst (crew_kickoff W cfg (kickoff_point tr)) = inr result ->
  String.length banner = 80
  /\ exists elapsed,
       main W cfg tr =
       (inr (Some result),
        [EPrint banner; EPrint result; EPrint banner;
         EPrint (PyStr.newline
                 ++ "🎉 CREWAI FINANCIAL MARKET WRAP - COMPLETE")%string;
         ELog INFO ("✅ Workflow completed in " ++ elapsed
                    ++ " seconds")%string;
         EClock] ++ snd (crew_kickoff W cfg (kickoff_point tr))).
Proof.
  intros V K. split; [reflexivity|].
  rewrite (main_run W cfg tr V).
  destruct (crew_kickoff W cfg (kickoff_point tr)) as [[e|r] t];
    cbn [fst snd] in *; [discriminate|].
  injection K as ->. now eexists.
Qed.

Lemma main_on_success_witness :
  String.length banner = 80
  /\ exists elapsed,
       main FiveResults.world Samples.full_config [] =
       (inr (Some "done"%string),
        [EPrint banner; EPrint "done"; EPrint banner;
         EPrint (PyStr.newline
                 ++ "🎉 CREWAI FINANCIAL MARKET WRAP - COMPLETE")%string;
         ELog INFO ("✅ Workflow completed in " ++ elapsed
                    ++ " seconds")%string;
         EClock]
        ++ snd (crew_kickoff FiveResults.world Samples.full_config
                  (kickoff_point []))).
Proof.
  apply (main_on_success FiveResults.world Samples.full_config []);
    reflexivity.
Defined.

(** ** More on the fallback executor *)

Lemma contains_of_prefix (needle hay : string) :
  String.prefix needle hay = true -> PyStr.contains needle hay = true.
Proof.
  intros H. destruct hay; cbn [PyStr.contains]; now rewrite H.
Qed.

(** X16. The fallback executor hands on whatever each step returns, error
    strings included: the news text of step 1 is the input of step 2, and
    the request posted in step 3 carries a message that holds the summary
    returned by step 2 verbatim, together with the "Fallback" marker. *)
Theorem fallback_delivers_what_the_steps_return
    (W : World) (cfg : Config) (tr : Trace) :
  let started := ELog INFO "🔄 Attempting fallback execution..." :: tr in
  exists news summary date stamp,
    fst (fetch_market_news W cfg started) = inr news
    /\ fst (generate_market_wrap W news
              (snd (fetch_market_news W cfg started))) = inr summary
    /\ nth_error (snd (fallback W cfg tr)) 2
       = Some (EPost (direct_request cfg
                        (fallback_message date summary stamp)))
    /\ PyStr.contains summary (fallback_message date summary stamp) = true
    /\ PyStr.contains "Fallback" (fallback_message date summary stamp)
       = true.
Proof.
  cbv zeta.
  destruct (fetch_market_news_run W cfg
              (ELog INFO "🔄 Attempting fallback execution..." :: tr))
    as (news & N).
  destruct (attempts_events W (wrap_prompt news) 0 [1; 2]
              (EPost (news_request cfg)
               :: ELog INFO "🔄 Attempting fallback execution..." :: tr))
    as (summary & d & G & _ & _).
  exists news, summary. do 2 eexists.
  split; [now rewrite N|]. split; [rewrite N; cbn [snd];
    unfold generate_market_wrap, retries; cbn [seq]; now rewrite G|].
  split.
  - unfold fallback, bind, log, print, emit at 1.
    rewrite N. unfold generate_market_wrap, retries. cbn [seq]. rewrite G.
    unfold now_strftime. rewrite send_to_telegram_direct_run.
    unfold emit. reflexivity.
  - split.
    + unfold fallback_message. do 5 apply contains_app_l.
      apply contains_of_prefix, prefix_app.
    + reflexivity.
Qed.

Example fallback_delivers_the_error_text :
  nth_error
    (snd (fallback
            (Samples.world (fun _ => inl Samples.bad_key) (Finish ""))
            Samples.full_config [])) 2
  = Some (EPost (direct_request Samples.full_config
                   (fallback_message "%Y-%m-%d"
                      "Error generating summary: Invalid API Key"
                      "%Y-%m-%d %H:%M:%S"))).
Proof. reflexivity. Qed.

(** X17. The fallback executor never raises and makes exactly two HTTP
    requests, one to the search service and one direct delivery, neither
    with a timeout. *)
Theorem fallback_requests_untimed (W : World) (cfg : Config) (tr : Trace) :
  exists d,
    fallback W cfg tr = (inr tt, d ++ tr)
    /\ count is_post d = 2
    /\ count is_search d = 1
    /\ count (is_direct_delivery cfg) d = 1
    /\ count is_timed_post d = 0.
Proof.
  destruct (fallback_run W cfg tr)
    as (news & summary & date & stamp & dw & R & _ & Fw & _).
  cbv zeta in R. rewrite R.
  eexists ([_; _; EPost (direct_request cfg
                            (fallback_message date summary stamp));
            ENow; ENow] ++ dw
           ++ [EPost (news_request cfg);
               ELog INFO "🔄 Attempting fallback execution..."]).
  split; [rewrite <- !app_assoc; reflexivity|].
  assert (forall p, (forall x, is_wrap_event x = true -> p x = false) ->
                    count p dw = 0) as Hw
    by (intros p Hp; apply (count_none _ _ dw Fw Hp)).
  split_count.
  rewrite (Hw is_post), (Hw is_search), (Hw (is_direct_delivery cfg))
    by (intros x Hx; apply (wrap_event_classes cfg x Hx)).
  rewrite (Hw is_timed_post) by (intros x Hx; apply (wrap_event_quiet x Hx)).
  rewrite direct_request_is_direct_delivery.
  destruct (news_request_not_delivery cfg) as [_ ->].
  cbn [is_post is_search is_timed_post is_direct_delivery
       req_url req_timeout news_request direct_request].
  rewrite telegram_url_not_search.
  change (String.eqb "https://api.tavily.com/search"
                     "https://api.tavily.com/search") with true.
  repeat split; lia.
Qed.
